(** * DynamoDbChatStorage: a shallow embedding of
      [multi_agent_orchestrator/storage/dynamodb_chat_storage.py]

    The Python class keeps one conversation per (user, session, agent) in a
    DynamoDB table and a process-wide cache of the merged, per-session view.
    The embedding below follows the source method by method:

    - DynamoDB attribute values and Python dictionaries are a small JSON-like
      inductive [value];
    - Python exceptions are an explicit [Raise] outcome; state is threaded by
      a state-and-exception monad [M] in which, as in Python, the state
      changes made before an exception is raised are kept;
    - the state holds the table, the class-level [_chat_cache], the log
      written through [Logger] and the trace of requests sent to the table;
    - what the process cannot control (the wall clock, outages of the table,
      the salted [hash], the built-ins [str] and [int] on inputs the code
      never produces itself) is a record of oracles, a variable of the
      section. *)

From Stdlib Require Import QArith Lqa.
From Stdlib Require Import Ascii String Sorted Permutation.
From stdpp Require Import gmap strings list fin_maps.

Set Implicit Arguments.
Unset Strict Implicit.
Set Warnings "-register-all".
Open Scope Z_scope.

(** ** Values held by the table and by Python variables *)

(** A DynamoDB attribute as boto3 hands it to Python: [None], a bool, a
    number, a string, a list or a map.  A map is an association list in
    insertion order whose first binding for a key is the live one.  Numbers
    are integers: the only numbers this class writes are millisecond
    timestamps and expiry times in seconds. *)
Inductive value : Type :=
  | VNone
  | VBool (b : bool)
  | VNum (n : Z)
  | VStr (s : string)
  | VList (l : list value)
  | VDict (d : list (string * value)).

Abbreviation dict := (list (string * value)).

(** The Python exceptions the class can meet.  [StoreError] stands for the
    botocore exceptions raised by a table request. *)
Inductive exn : Type :=
  | KeyError (k : string)
  | IndexError
  | TypeError
  | ValueError
  | AttributeError
  | StoreError (reason : string).

Inductive result (A : Type) : Type :=
  | Ok (a : A)
  | Raise (e : exn).
Arguments Ok {A} a.
Arguments Raise {A} e.

Definition rbind {A B} (r : result A) (k : A -> result B) : result B :=
  match r with
  | Ok a => k a
  | Raise e => Raise e
  end.

Declare Scope result_scope.
Delimit Scope result_scope with result.
Notation "x <~ r ; k" := (rbind r (fun x => k))
  (at level 100, r at next level, right associativity) : result_scope.

(** A list comprehension whose body may raise: elements are evaluated from
    left to right and the first exception ends the comprehension. *)
Fixpoint traverse {A B} (f : A -> result B) (l : list A) : result (list B) :=
  match l with
  | [] => Ok []
  | x :: l' =>
      (y <~ f x ;
       ys <~ traverse f l' ;
       Ok (y :: ys))%result
  end.

(** ** Dictionaries *)

(** [d.get(k)] *)
Fixpoint dict_get (k : string) (d : dict) : option value :=
  match d with
  | [] => None
  | (k', v) :: d' => if String.eqb k k' then Some v else dict_get k d'
  end.

(** [d[k] = v]: an existing key keeps its place, a new one goes last. *)
Fixpoint dict_set (k : string) (v : value) (d : dict) : dict :=
  match d with
  | [] => [(k, v)]
  | (k', v') :: d' =>
      if String.eqb k k' then (k, v) :: d' else (k', v') :: dict_set k v d'
  end.

(** [v[k]] for a string key [k]: only a dict can be subscripted by a string. *)
Definition getitem (v : value) (k : string) : result value :=
  match v with
  | VDict d =>
      match dict_get k d with
      | Some x => Ok x
      | None => Raise (KeyError k)
      end
  | _ => Raise TypeError
  end.

(** [l[i]] on a Python list, for a non-negative index. *)
Definition list_index {A} (l : list A) (i : nat) : result A :=
  match l !! i with
  | Some x => Ok x
  | None => Raise IndexError
  end.

(** [len(v)]: strings, lists and maps have a length, the rest raise. *)
Definition py_len (v : value) : result Z :=
  match v with
  | VStr s => Ok (Z.of_nat (String.length s))
  | VList l => Ok (Z.of_nat (length l))
  | VDict d => Ok (Z.of_nat (length d))
  | _ => Raise TypeError
  end.

Fixpoint chars (s : string) : list value :=
  match s with
  | EmptyString => []
  | String c s' => VStr (String c EmptyString) :: chars s'
  end.

(** [for x in v]: a list yields its elements, a string its characters, a map
    its keys; nothing else is iterable. *)
Definition py_iter (v : value) : result (list value) :=
  match v with
  | VList l => Ok l
  | VStr s => Ok (chars s)
  | VDict d => Ok (map (fun kv => VStr (fst kv)) d)
  | _ => Raise TypeError
  end.

(** [s.split(sep)] for a one-character separator. *)
Fixpoint split (sep : ascii) (s : string) : list string :=
  match s with
  | EmptyString => [EmptyString]
  | String c s' =>
      if Ascii.eqb c sep then EmptyString :: split sep s'
      else match split sep s' with
           | h :: t => String c h :: t
           | [] => [String c EmptyString]
           end
  end.

(** Equality of values is decidable. *)
Definition value_eq_dec : forall a b : value, {a = b} + {a <> b}.
Proof.
  fix IH 1.
  intros a b; destruct a, b; try (right; discriminate); try (left; reflexivity).
  - destruct (Bool.bool_dec b b0) as [->|N]; [left; reflexivity | right; congruence].
  - destruct (Z.eq_dec n n0) as [->|N]; [left; reflexivity | right; congruence].
  - destruct (String.string_dec s s0) as [->|N]; [left; reflexivity | right; congruence].
  - assert (D : {l = l0} + {l <> l0}).
    { revert l0; induction l as [|x l IHl]; intros [|y m];
        try (right; discriminate); try (left; reflexivity).
      destruct (IH x y) as [->|N]; [|right; congruence].
      destruct (IHl m) as [->|N]; [left; reflexivity | right; congruence]. }
    destruct D as [->|N]; [left; reflexivity | right; congruence].
  - assert (D : {d = d0} + {d <> d0}).
    { revert d0; induction d as [|[k x] d IHd]; intros [|[k' y] m];
        try (right; discriminate); try (left; reflexivity).
      destruct (String.string_dec k k') as [->|N]; [|right; congruence].
      destruct (IH x y) as [->|N]; [|right; congruence].
      destruct (IHd m) as [->|N]; [left; reflexivity | right; congruence]. }
    destruct D as [->|N]; [left; reflexivity | right; congruence].
Defined.

#[global] Instance value_eq_decision : EqDecision value := value_eq_dec.

(** ** Numbers and time *)

(** [time.time()] returns a float; the embedding takes the readings as exact
    rationals, on which the differences and comparisons of the source are the
    mathematical ones. *)
Definition Qltb (x y : Q) : bool :=
  (Qnum x * QDen y <? Qnum y * QDen x)%Z.

(** [int(q)]: truncation toward zero. *)
Definition int_of_Q (q : Q) : Z := Z.quot (Qnum q) (Zpos (Qden q)).

(** ** Messages *)

(** [ConversationMessage(role, content)] *)
Record ConversationMessage : Type := mkConversationMessage {
  cm_role : value;
  cm_content : value
}.

(** [TimestampedMessage(role, content, timestamp)].  Python does not fix the
    type of [timestamp]: a message decoded from the table carries whatever
    the record held ([T := value]), a message of the merged view carries the
    [int] the code computed ([T := Z]).
    Modelled from the spec: the class is in [multi_agent_orchestrator.types],
    which is not among the sources.  By the spec a TimestampedMessage is a
    Message plus a timestamp, so the constructor called with a role, a
    content and a timestamp is taken to keep the three values it is given. *)
Record TimestampedMessage (T : Type) : Type := mkTimestampedMessage {
  role : value;
  content : value;
  timestamp : T
}.
Arguments mkTimestampedMessage {T} role content timestamp.

(** What a caller hands to the save methods, and what [save_chat_message]
    hands back: [Union[ConversationMessage, TimestampedMessage]]. *)
Inductive message : Type :=
  | Plain (m : ConversationMessage)
  | Stamped (m : TimestampedMessage value).

(** The attributes [.role] and [.content], which every message class has. *)
Class Message (X : Type) : Type := {
  role_of : X -> value;
  content_of : X -> value
}.

#[global] Instance ConversationMessage_Message : Message ConversationMessage :=
  {| role_of := cm_role; content_of := cm_content |}.

#[global] Instance TimestampedMessage_Message T : Message (TimestampedMessage T) :=
  {| role_of := @role T; content_of := @content T |}.

#[global] Instance message_Message : Message message :=
  {| role_of m := match m with Plain c => cm_role c | Stamped t => role t end;
     content_of m := match m with Plain c => cm_content c | Stamped t => content t end |}.

(** [_remove_timestamps] (source lines 271-275). *)
Definition _remove_timestamps {X} `{Message X} (messages : list X)
  : list ConversationMessage :=
  map (fun message => mkConversationMessage (role_of message) (content_of message))
      messages.

(** One record of [_dict_to_conversation]: the keyword arguments are
    evaluated in the order role, content, timestamp.
    Modelled from the spec: the constructor [TimestampedMessage], which is
    not among the sources, is taken to keep the role, the content and the
    timestamp it is given (see [TimestampedMessage]). *)
Definition record_to_message (msg : value) : result (TimestampedMessage value) :=
  (r <~ getitem msg "role" ;
   c <~ getitem msg "content" ;
   t <~ getitem msg "timestamp" ;
   Ok (mkTimestampedMessage r c t))%result.

(** [_dict_to_conversation] (source lines 277-282). *)
Definition _dict_to_conversation (messages : value)
  : result (list (TimestampedMessage value)) :=
  (records <~ py_iter messages ;
   traverse record_to_message records)%result.

(** [_generate_key] (source lines 268-269). *)
Definition _generate_key (user_id session_id agent_id : string) : string :=
  session_id ++ "#" ++ agent_id.

(** [ParticipantRole.ASSISTANT.value] *)
Definition ASSISTANT : string := "assistant".

(** [v == ParticipantRole.ASSISTANT.value] *)
Definition is_assistant (v : value) : bool :=
  match v with
  | VStr s => String.eqb s ASSISTANT
  | _ => false
  end.

(** ** The parts of the package that the storage class calls *)

(** Modelled from the spec: [ChatStorage.is_same_role_as_last_message], the
    base-class method behind the spec's [should_suppress]; the base class is
    not among the sources.  True iff the conversation is non-empty and its
    last entry's role equals the incoming role. *)
Definition is_same_role_as_last_message
    (conversation : list (TimestampedMessage value)) (new_message : message) : bool :=
  match last conversation with
  | None => false
  | Some m => bool_decide (role m = role_of new_message)
  end.

(** Modelled from the spec: [ChatStorage.trim_conversation], the spec's
    [trim]; the base class is not among the sources.  Without a bound the
    input is returned; otherwise the last [max_history_size] entries are, in
    their order, and a bound of 0 or less leaves nothing. *)
Definition trim_conversation {X} (conversation : list X)
    (max_history_size : option Z) : list X :=
  match max_history_size with
  | None => conversation
  | Some n =>
      if n <=? 0 then []
      else drop (length conversation - Z.to_nat n)%nat conversation
  end.

(** The normal form of a content: a list stays, anything else becomes the one
    text block holding it (source lines 229-230). *)
Definition normalize_content (c : value) : value :=
  match c with
  | VList _ => c
  | _ => VList [VDict [("text", c)]]
  end.

(** Modelled from the spec: [utils.conversation_to_dict], the spec's
    [encode]; the module is not among the sources.  Each message becomes a
    plain record with its role, its content normalized to a sequence of
    blocks, and its timestamp; a message that has no timestamp gets no
    timestamp field. *)
Definition message_to_dict (m : message) : value :=
  match m with
  | Plain c =>
      VDict [("role", cm_role c); ("content", normalize_content (cm_content c))]
  | Stamped t =>
      VDict [("role", role t); ("content", normalize_content (content t));
             ("timestamp", timestamp t)]
  end.

Definition conversation_to_dict (conversation : list message) : value :=
  VList (map message_to_dict conversation).

(** ** State *)

(** An entry of [_chat_cache]: [{'timestamp': ..., 'data': ...}]. *)
Record cache_entry : Type := mkCacheEntry {
  ce_timestamp : Q;
  ce_data : list ConversationMessage
}.

(** A request sent to the table. *)
Inductive request : Type :=
  | GetItem (pk sk : string)
  | PutItem (item : dict)
  | Query (pk sk_prefix : string).

(** A line written through [Logger], by the place that writes it. *)
Inductive log_event : Type :=
  | DebugConsecutive (role : value) (agent_id : string)
  | ErrorSaving (e : exn)
  | ErrorGetting (e : exn)      (* line 169, "Error getting ... DynamoDB: {e}" *)
  | ErrorFetching (e : exn)     (* line 152, "Error getting ... DynamoDB:{e}" *)
  | ErrorQuerying (e : exn)
  | ErrorUnexpectedItem (item : dict).

Record state : Type := mkState {
  table : list dict;                      (* the items of the DynamoDB table *)
  _chat_cache : gmap string cache_entry;  (* the class attribute *)
  log : list log_event;                   (* oldest first *)
  calls : list request;                   (* oldest first *)
  ticks : nat                             (* readings of the clock so far *)
}.

Definition set_table (t : list dict) (st : state) : state :=
  mkState t (_chat_cache st) (log st) (calls st) (ticks st).
Definition set_cache (c : gmap string cache_entry) (st : state) : state :=
  mkState (table st) c (log st) (calls st) (ticks st).
Definition add_log (e : log_event) (st : state) : state :=
  mkState (table st) (_chat_cache st) (log st ++ [e]) (calls st) (ticks st).
Definition add_call (r : request) (st : state) : state :=
  mkState (table st) (_chat_cache st) (log st) (calls st ++ [r]) (ticks st).
Definition tick (st : state) : state :=
  mkState (table st) (_chat_cache st) (log st) (calls st) (S (ticks st)).

(** ** The monad of the methods *)

Definition M (A : Type) : Type := state -> result A * state.

Definition ret {A} (a : A) : M A := fun st => (Ok a, st).
Definition raise {A} (e : exn) : M A := fun st => (Raise e, st).
Definition bind {A B} (m : M A) (k : A -> M B) : M B :=
  fun st =>
    match m st with
    | (Ok a, st') => k a st'
    | (Raise e, st') => (Raise e, st')
    end.
(** [try: m except Exception as error: h error] *)
Definition try_except {A} (m : M A) (h : exn -> M A) : M A :=
  fun st =>
    match m st with
    | (Ok a, st') => (Ok a, st')
    | (Raise e, st') => h e st'
    end.
Definition lift {A} (r : result A) : M A := fun st => (r, st).
Definition gets {A} (f : state -> A) : M A := fun st => (Ok (f st), st).
Definition modify (f : state -> state) : M unit := fun st => (Ok tt, f st).

Declare Scope M_scope.
Delimit Scope M_scope with M.
Notation "x <- m ;; k" := (bind m (fun x => k))
  (at level 100, m at next level, right associativity) : M_scope.
Notation "m ;; k" := (bind m (fun _ => k))
  (at level 100, right associativity) : M_scope.

(** A comprehension whose body runs in [M]. *)
Fixpoint mapM {A B} (f : A -> M B) (l : list A) : M (list B) :=
  match l with
  | [] => ret []
  | x :: l' =>
      (y <- f x ;;
       ys <- mapM f l' ;;
       ret (y :: ys))%M
  end.

(** ** What the process does not control *)

Record oracle : Type := mkOracle {
  (** the [n]-th reading of [time.time()] *)
  clock : nat -> Q;
  (** the exception, if any, with which the [n]-th request to the table
      fails (a transport failure, a throttled request, ...) *)
  outage : nat -> option exn;
  (** [hash(str(t))] for a float [t]; string hashes are salted per process *)
  hash_of_time : Q -> Z;
  (** [str(v)] for a value that is not itself a string *)
  str_of : value -> string;
  (** [int(s)] for a string [s] *)
  int_of_str : string -> result Z;
  (** [int(t * 1000)] for a float [t]: the product is rounded to a float
      before it is truncated *)
  millis_of_time : Q -> Z
}.

(** The constructor arguments kept by [__init__] (source lines 11-21) that
    the methods read. *)
Record DynamoDbChatStorage : Type := mkDynamoDbChatStorage {
  ttl_key : option string;
  ttl_duration : Z
}.

(** [_cache_ttl = 10  # seconds] (source line 174) *)
Definition _cache_ttl : Q := 10%Q.

(** ** The table *)

(** Does the item have this primary key? *)
Definition has_key (pk sk : string) (item : dict) : bool :=
  match dict_get "PK" item, dict_get "SK" item with
  | Some (VStr p), Some (VStr s) => String.eqb p pk && String.eqb s sk
  | _, _ => false
  end.

(** [PK = :pk AND begins_with(SK, :skPrefix)] *)
Definition matches (pk sk_prefix : string) (item : dict) : bool :=
  match dict_get "PK" item, dict_get "SK" item with
  | Some (VStr p), Some (VStr s) => String.eqb p pk && String.prefix sk_prefix s
  | _, _ => false
  end.

(** [ProjectionExpression="SK, conversation"] *)
Definition project (item : dict) : dict :=
  List.filter (fun kv => String.eqb (fst kv) "SK" || String.eqb (fst kv) "conversation")
              item.

(** A put overwrites the item that has the same key, or adds the item. *)
Fixpoint table_put (pk sk : string) (item : dict) (t : list dict) : list dict :=
  match t with
  | [] => [item]
  | it :: t' =>
      if has_key pk sk it then item :: t' else it :: table_put pk sk item t'
  end.

Section Storage.

Context (W : oracle) (self : DynamoDbChatStorage).

(** [time.time()] *)
Definition time_time : M Q :=
  fun st => (Ok (clock W (ticks st)), tick st).

Definition logger (e : log_event) : M unit := modify (add_log e).

(** Every request is recorded, then fails if the table is out. *)
Definition send (r : request) : M unit :=
  fun st =>
    match outage W (length (calls st)) with
    | Some e => (Raise e, add_call r st)
    | None => (Ok tt, add_call r st)
    end.

(** [self.table.get_item(Key={'PK': pk, 'SK': sk})], as [response.get('Item')] *)
Definition get_item (pk sk : string) : M (option dict) :=
  (send (GetItem pk sk) ;;
   gets (fun st => List.find (has_key pk sk) (table st)))%M.

(** [self.table.put_item(Item=item)]: the table refuses an item whose key
    attributes are not strings. *)
Definition put_item (item : dict) : M unit :=
  (send (PutItem item) ;;
   match dict_get "PK" item, dict_get "SK" item with
   | Some (VStr pk), Some (VStr sk) =>
       modify (fun st => set_table (table_put pk sk item (table st)) st)
   | _, _ => raise (StoreError "ValidationException")
   end)%M.

(** [self.table.query(...)], as [response.get('Items')]; the items come in
    the order the table holds them. *)
Definition query (pk sk_prefix : string) : M (list dict) :=
  (send (Query pk sk_prefix) ;;
   gets (fun st => map project (List.filter (matches pk sk_prefix) (table st))))%M.

(** [f"{v}"] *)
Definition format (v : value) : string :=
  match v with
  | VStr s => s
  | _ => str_of W v
  end.

(** [int(v)] *)
Definition py_int (v : value) : result Z :=
  match v with
  | VNum n => Ok n
  | VBool b => Ok (if b then 1 else 0)
  | VStr s => int_of_str W s
  | _ => Raise TypeError
  end.

(** [TimestampedMessage(role=..., content=..., timestamp=int(time.time() * 1000))]
    (source lines 46-50).  Modelled from the spec: the constructor called
    without a timestamp (source lines 108-111) stamps the message with the
    current time in milliseconds as well; the class is not among the
    sources. *)
Definition stamp_now {X} `{Message X} (m : X) : M (TimestampedMessage value) :=
  (t <- time_time ;;
   ret (mkTimestampedMessage (role_of m) (content_of m)
          (VNum (millis_of_time W t))))%M.

(** [if self.ttl_key: item[self.ttl_key] = int(time.time()) + self.ttl_duration] *)
Definition add_ttl (item : dict) : M dict :=
  match ttl_key self with
  | None => ret item
  | Some k =>
      if String.eqb k "" then ret item
      else (t <- time_time ;;
            ret (dict_set k (VNum (int_of_Q t + ttl_duration self)) item))%M
  end.

(** ** Single-agent reads *)

(** [response.get('Item', {}).get('conversation', [])] *)
Definition stored_conversation (item : option dict) : value :=
  match item with
  | None => VList []
  | Some it =>
      match dict_get "conversation" it with
      | Some v => v
      | None => VList []
      end
  end.

(** [fetch_chat_with_timestamp] (source lines 155-170). *)
Definition fetch_chat_with_timestamp (user_id session_id agent_id : string)
  : M (list (TimestampedMessage value)) :=
  let key := _generate_key user_id session_id agent_id in
  try_except
    (response <- get_item user_id key ;;
     stored_messages <- lift (_dict_to_conversation (stored_conversation response)) ;;
     ret stored_messages)%M
    (fun error => logger (ErrorGetting error) ;; raise error)%M.

(** [fetch_chat] (source lines 138-153). *)
Definition fetch_chat (user_id session_id agent_id : string)
  : M (list ConversationMessage) :=
  let key := _generate_key user_id session_id agent_id in
  try_except
    (response <- get_item user_id key ;;
     stored_messages <- lift (_dict_to_conversation (stored_conversation response)) ;;
     ret (_remove_timestamps stored_messages))%M
    (fun error => logger (ErrorFetching error) ;; raise error)%M.

(** ** Saving *)

(** The item written by both save methods (source lines 62-70, 121-128). *)
Definition make_item (user_id key : string) (trimmed_conversation : list message)
  : M dict :=
  add_ttl [("PK", VStr user_id); ("SK", VStr key);
           ("conversation", conversation_to_dict trimmed_conversation)].

(** [if cache_key in self._chat_cache: del self._chat_cache[cache_key]] *)
Definition invalidate (cache_key : string) : M unit :=
  modify (fun st => set_cache (delete cache_key (_chat_cache st)) st).

(** [save_chat_message] (source lines 23-84).
    Modelled from the spec: [isinstance(new_message, ConversationMessage)]
    holds of the messages that have no timestamp; the class hierarchy is not
    among the sources. *)
Definition save_chat_message (user_id session_id agent_id : string)
    (new_message : message) (max_history_size : option Z) : M (list message) :=
  let key := _generate_key user_id session_id agent_id in
  let cache_key := (user_id ++ ":" ++ session_id)%string in
  try_except
    (existing_conversation <- fetch_chat_with_timestamp user_id session_id agent_id ;;
     if is_same_role_as_last_message existing_conversation new_message then
       (logger (DebugConsecutive (role_of new_message) agent_id) ;;
        ret (map Stamped existing_conversation))
     else
       (new_message <- match new_message with
                       | Plain c => stamp_now c
                       | Stamped t => ret t
                       end ;;
        let existing_conversation := existing_conversation ++ [new_message] in
        let trimmed_conversation :=
          trim_conversation existing_conversation max_history_size in
        item <- make_item user_id key (map Stamped trimmed_conversation) ;;
        invalidate cache_key ;;
        put_item item ;;
        ret (map Plain (_remove_timestamps trimmed_conversation))))%M
    (fun error => logger (ErrorSaving error) ;; raise error)%M.

(** [save_chat_messages] (source lines 86-136). *)
Definition save_chat_messages (user_id session_id agent_id : string)
    (new_messages : list message) (max_history_size : option Z)
  : M (list ConversationMessage) :=
  let key := _generate_key user_id session_id agent_id in
  (existing_conversation <- fetch_chat_with_timestamp user_id session_id agent_id ;;
   first <- lift (list_index new_messages 0) ;;
   new_messages <- match first with
                   | Plain _ =>
                       mapM (fun new_message =>
                               t <- stamp_now new_message ;; ret (Stamped t))
                            new_messages
                   | Stamped _ => ret new_messages
                   end ;;
   let existing_conversation := map Stamped existing_conversation ++ new_messages in
   let trimmed_conversation :=
     trim_conversation existing_conversation max_history_size in
   item <- make_item user_id key trimmed_conversation ;;
   try_except (put_item item)
     (fun error => logger (ErrorSaving error) ;; raise error) ;;
   ret (_remove_timestamps trimmed_conversation))%M.

(** ** The merged view *)

(** [all_chats.sort(key=attrgetter('timestamp'))]: Python's sort is stable;
    so is this insertion sort, which puts a message before the first kept
    message whose timestamp is not smaller. *)
Fixpoint insert_by_timestamp (m : TimestampedMessage Z)
    (l : list (TimestampedMessage Z)) : list (TimestampedMessage Z) :=
  match l with
  | [] => [m]
  | x :: l' =>
      if timestamp m <=? timestamp x then m :: l
      else x :: insert_by_timestamp m l'
  end.

Definition sort_by_timestamp (l : list (TimestampedMessage Z))
  : list (TimestampedMessage Z) :=
  foldr insert_by_timestamp [] l.

(** [item['SK'].split('#')[1]] (source line 220). *)
Definition agent_id_of (item : dict) : result string :=
  (sk <~ getitem (VDict item) "SK" ;
   match sk with
   | VStr s => list_index (split "#" s) 1
   | _ => Raise AttributeError
   end)%result.

(** [content[0]['text'] if isinstance(content, list) else content]
    (source line 227). *)
Definition first_text (content : value) : result value :=
  match content with
  | VList blocks =>
      (block <~ list_index blocks 0 ;
       getitem block "text")%result
  | _ => Ok content
  end.

(** [[{'text': f"[{agent_id}] {text}"}]] (source line 228). *)
Definition tagged (agent_id : string) (text : value) : value :=
  VList [VDict [("text", VStr ("[" ++ agent_id ++ "] " ++ format text))]].

(** The body of the loop over the messages of one item (source lines
    225-237). *)
Definition merge_message (agent_id : string) (msg : value)
  : result (TimestampedMessage Z) :=
  (content <~ getitem msg "content" ;
   msg_role <~ getitem msg "role" ;
   content <~ (if is_assistant msg_role then
                 (text <~ first_text content ;
                  Ok (tagged agent_id text))
               else Ok (normalize_content content)) ;
   stamp <~ getitem msg "timestamp" ;
   t <~ py_int stamp ;
   Ok (mkTimestampedMessage msg_role content t))%result.

(** The loop over the items (source lines 214-237), from the messages
    gathered so far. *)
Fixpoint merge_items (items : list dict) (all_chats : list (TimestampedMessage Z))
  : M (list (TimestampedMessage Z)) :=
  match items with
  | [] => ret all_chats
  | item :: items' =>
      match dict_get "conversation" item with
      | Some (VList conversation) =>
          (agent_id <- lift (agent_id_of item) ;;
           msgs <- lift (traverse (merge_message agent_id) conversation) ;;
           merge_items items' (all_chats ++ msgs))%M
      | _ =>
          (logger (ErrorUnexpectedItem item) ;;
           merge_items items' all_chats)%M
      end
  end.

(** [sum(len(item.get('conversation', [])) for item in response['Items'])]
    (source line 210). *)
Definition count_messages (items : list dict) : result Z :=
  (lens <~ traverse (fun item =>
                       py_len (match dict_get "conversation" item with
                               | Some v => v
                               | None => VList []
                               end)) items ;
   Ok (foldr Z.add 0 lens))%result.

(** Is the entry too old to be kept by the sweep (source line 263)? *)
Definition expired (current_time : Q) (entry : cache_entry) : bool :=
  Qltb (_cache_ttl * 10) (current_time - ce_timestamp entry).

(** [_clean_cache] (source lines 257-266). *)
Definition _clean_cache (current_time : Q) : M unit :=
  if hash_of_time W current_time mod 100 =? 0 then
    modify (fun st =>
      set_cache (filter (fun kv => expired current_time (snd kv) = false)
                        (_chat_cache st)) st)
  else ret tt.

(** The data of a cache entry that may still be served (source lines
    183-187). *)
Definition cached (current_time : Q) (cache_key : string)
    (cache : gmap string cache_entry) : option (list ConversationMessage) :=
  match cache !! cache_key with
  | Some cache_entry =>
      if Qltb (current_time - ce_timestamp cache_entry) _cache_ttl
      then Some (ce_data cache_entry)
      else None
  | None => None
  end.

(** [self._chat_cache[cache_key] = {'timestamp': current_time, 'data': data}] *)
Definition remember (cache_key : string) (current_time : Q)
    (data : list ConversationMessage) : M unit :=
  modify (fun st =>
    set_cache (<[cache_key := mkCacheEntry current_time data]> (_chat_cache st)) st).

(** What [fetch_all_chats] does once the cache has not answered (source
    lines 189-252). *)
Definition fetch_from_table (user_id session_id cache_key : string)
    (current_time : Q) : M (list ConversationMessage) :=
  (items <- query user_id (session_id ++ "#") ;;
   match items with
   | [] =>
       remember cache_key current_time [] ;;
       ret []
   | _ =>
       all_msgs_count <- lift (count_messages items) ;;
       all_chats <- merge_items items [] ;;
       let all_chats := sort_by_timestamp all_chats in
       let result := _remove_timestamps all_chats in
       remember cache_key current_time result ;;
       _clean_cache current_time ;;
       ret result
   end)%M.

(** [fetch_all_chats] (source lines 176-255). *)
Definition fetch_all_chats (user_id session_id : string)
  : M (list ConversationMessage) :=
  try_except
    (let cache_key := (user_id ++ ":" ++ session_id)%string in
     current_time <- time_time ;;
     cache <- gets _chat_cache ;;
     match cached current_time cache_key cache with
     | Some data => ret data
     | None => fetch_from_table user_id session_id cache_key current_time
     end)%M
    (fun error => logger (ErrorQuerying error) ;; raise error)%M.

End Storage.

(** ** A pure reading of the merge loop *)

(** The messages one item contributes to the merged view: those of its
    conversation, decoded and tagged, or none when the item is passed over. *)
Definition item_messages (W : oracle) (item : dict)
  : result (list (TimestampedMessage Z)) :=
  match dict_get "conversation" item with
  | Some (VList conversation) =>
      (agent_id <~ agent_id_of item ;
       traverse (merge_message W agent_id) conversation)%result
  | _ => Ok []
  end.

(** Does the item hold a list under [conversation]? *)
Definition has_conversation (item : dict) : bool :=
  match dict_get "conversation" item with
  | Some (VList _) => true
  | _ => false
  end.

(** The log lines the loop writes for the items it passes over. *)
Definition passed_over (items : list dict) : list log_event :=
  map ErrorUnexpectedItem (List.filter (fun item => negb (has_conversation item)) items).

Definition add_logs (es : list log_event) (st : state) : state :=
  mkState (table st) (_chat_cache st) (log st ++ es) (calls st) (ticks st).

(** The items a query for the session returns in a state. *)
Definition session_items (user_id session_id : string) (st : state) : list dict :=
  map project (List.filter (matches user_id (session_id ++ "#")) (table st)).

(** The order of the merged view. *)
Definition by_timestamp (a b : TimestampedMessage Z) : Prop :=
  timestamp a <= timestamp b.


(** A computation preserves a component [f] of the state when, whatever its
    outcome, [f] is the same before and after. *)
Definition preserves {X A} (f : state -> X) (m : M A) : Prop :=
  forall st, f (snd (m st)) = f st.


(** Two states that differ at most by readings of the clock. *)
Definition clock_only (st st' : state) : Prop :=
  table st' = table st /\ _chat_cache st' = _chat_cache st
  /\ calls st' = calls st /\ log st' = log st.


(** Does the character occur in the string? *)
Fixpoint contains (c : ascii) (s : string) : bool :=
  match s with
  | EmptyString => false
  | String c' s' => Ascii.eqb c' c || contains c s'
  end.


(** Can [len] be taken of what the item holds under [conversation]? *)
Definition sized (item : dict) : bool :=
  match py_len (match dict_get "conversation" item with
                | Some v => v
                | None => VList []
                end) with
  | Ok _ => true
  | Raise _ => false
  end.

(** ** Fixtures for the concrete cases *)

(** A world in which the clock shows 100 s plus one second per reading, the
    table is never out, the sweep is never due, [str] and [int] are not
    needed, and the milliseconds of a time are those of the exact product. *)
Definition quiet : oracle :=
  mkOracle (fun n => inject_Z (100 + Z.of_nat n)) (fun _ => None) (fun _ => 1)
           (fun _ => "?"%string) (fun _ => Raise ValueError)
           (fun t => int_of_Q (t * 1000)).

(** The same world with the table out at the second request. *)
Definition second_request_fails : oracle :=
  mkOracle (clock quiet)
           (fun n => match n with 1%nat => Some (StoreError "down") | _ => None end)
           (hash_of_time quiet) (str_of quiet) (int_of_str quiet)
           (millis_of_time quiet).

(** The same world with the sweep of the cache due at every call. *)
Definition sweep_due : oracle :=
  mkOracle (clock quiet) (outage quiet) (fun _ => 0) (str_of quiet)
           (int_of_str quiet) (millis_of_time quiet).

Definition no_ttl : DynamoDbChatStorage := mkDynamoDbChatStorage None 3600.

Definition text_block (s : string) : value := VList [VDict [("text", VStr s)]].

Definition record (r : string) (c : value) (t : Z) : value :=
  VDict [("role", VStr r); ("content", c); ("timestamp", VNum t)].

Definition stored (user_id session_id agent_id : string) (conversation : value) : dict :=
  [("PK", VStr user_id); ("SK", VStr (_generate_key user_id session_id agent_id));
   ("conversation", conversation)].

(** Agent A holds [{user, "hi", t=1}], agent B holds [{assistant, "hello", t=2}]. *)
Definition item_A : dict := stored "u" "s" "A" (VList [record "user" (VStr "hi") 1]).
Definition item_B : dict := stored "u" "s" "B" (VList [record "assistant" (text_block "hello") 2]).

Definition fresh (t : list dict) : state := mkState t ∅ [] [] 0.

(** Agent A's item with a record that has no timestamp. *)
Definition item_without_timestamp : dict :=
  stored "u" "s" "A" (VList [VDict [("role", VStr "user"); ("content", VStr "hi")]]).

(** Agent A's item with a string where the list of records should be. *)
Definition item_without_list : dict := stored "u" "s" "A" (VStr "corrupt").

(** Agent B's item with an assistant message whose content is the empty list. *)
Definition item_empty_content : dict :=
  stored "u" "s" "B" (VList [record "assistant" (VList []) 2]).

(** A cache with a view that is 200 s old and one that is 50 s old when the
    time is 200 s. *)
Definition two_ages_cached : state :=
  mkState []
    {[ "u:old"%string := mkCacheEntry 0 []; "u:new"%string := mkCacheEntry 150 [] ]}
    [] [] 0.

(** Agent A's item in the table and, in the cache, another view of the
    session that is 10 s old at the first reading of the clock of [quiet]. *)
Definition expired_cached : state :=
  mkState [item_A]
    {[ "u:s"%string :=
         mkCacheEntry 90 [mkConversationMessage (VStr "user") (text_block "stale")] ]}
    [] [] 0.

(** Agent B's item with an assistant message of two text blocks. *)
Definition item_two_blocks : dict :=
  stored "u" "s" "B"
    (VList [record "assistant"
              (VList [VDict [("text", VStr "hello")]; VDict [("text", VStr "world")]]) 2]).

(** Agent B's item with an assistant message whose first block is an image
    and whose second block is a text. *)
Definition item_image_first : dict :=
  stored "u" "s" "B"
    (VList [record "assistant"
              (VList [VDict [("image", VStr "png")]; VDict [("text", VStr "hello")]]) 2]).


(** Agent A's item in the table and the views of two sessions in the cache. *)
Definition two_sessions_cached : state :=
  mkState [item_A]
    {[ "u:s"%string := mkCacheEntry 99 []; "u:t"%string := mkCacheEntry 98 [] ]}
    [] [] 0.

(** ** Sorting *)


Lemma insert_by_timestamp_perm m l :
  Permutation (insert_by_timestamp m l) (m :: l).
Proof.
  induction l as [|x l IH]; simpl; [reflexivity|].
  destruct (timestamp m <=? timestamp x); [reflexivity|].
  rewrite IH. apply perm_swap.
Qed.

Lemma sort_by_timestamp_perm l : Permutation (sort_by_timestamp l) l.
Proof.
  induction l as [|x l IH]; simpl; [reflexivity|].
  rewrite insert_by_timestamp_perm. constructor. exact IH.
Qed.

Lemma insert_by_timestamp_sorted m l :
  StronglySorted by_timestamp l -> StronglySorted by_timestamp (insert_by_timestamp m l).
Proof.
  induction 1 as [|x l Hs IH Hall]; simpl.
  - repeat constructor.
  - destruct (timestamp m <=? timestamp x) eqn:E.
    + apply Z.leb_le in E. constructor; [constructor; assumption|].
      constructor; [exact E|].
      apply List.Forall_impl with (P := by_timestamp x); [|exact Hall].
      unfold by_timestamp; intros; lia.
    + apply Z.leb_gt in E. constructor; [exact IH|].
      rewrite insert_by_timestamp_perm.
      constructor; [unfold by_timestamp; lia | exact Hall].
Qed.

Lemma sort_by_timestamp_sorted l : StronglySorted by_timestamp (sort_by_timestamp l).
Proof.
  induction l as [|x l IH]; simpl; [constructor|].
  apply insert_by_timestamp_sorted, IH.
Qed.

(** The sort is stable: messages with the same timestamp keep their order. *)
Lemma insert_by_timestamp_stable t m l :
  StronglySorted by_timestamp l ->
  List.filter (fun x => timestamp x =? t) (insert_by_timestamp m l)
  = List.filter (fun x => timestamp x =? t) (m :: l).
Proof.
  induction 1 as [|x l Hs IH Hall]; [reflexivity|].
  cbn [insert_by_timestamp].
  destruct (timestamp m <=? timestamp x) eqn:E; [reflexivity|].
  apply Z.leb_gt in E.
  cbn [List.filter] in *. rewrite IH.
  destruct (timestamp x =? t) eqn:Ex, (timestamp m =? t) eqn:Em; try reflexivity.
  apply Z.eqb_eq in Ex, Em. lia.
Qed.

Lemma sort_by_timestamp_stable t l :
  List.filter (fun x => timestamp x =? t) (sort_by_timestamp l)
  = List.filter (fun x => timestamp x =? t) l.
Proof.
  induction l as [|x l IH]; [reflexivity|].
  cbn [sort_by_timestamp foldr].
  fold (sort_by_timestamp l).
  rewrite insert_by_timestamp_stable by apply sort_by_timestamp_sorted.
  cbn [List.filter]. rewrite IH. reflexivity.
Qed.

(** ** How the methods run *)

Lemma rbind_Ok {A B} (r : result A) (k : A -> result B) b :
  rbind r k = Ok b -> exists a, r = Ok a /\ k a = Ok b.
Proof. destruct r as [a|e]; simpl; [eauto | discriminate]. Qed.

Lemma traverse_cons_Ok {A B} (f : A -> result B) x l ys :
  traverse f (x :: l) = Ok ys ->
  exists y ys', f x = Ok y /\ traverse f l = Ok ys' /\ ys = y :: ys'.
Proof.
  simpl. intros H.
  apply rbind_Ok in H as (y & Hy & H).
  apply rbind_Ok in H as (ys' & Hys & H).
  injection H as <-. eauto.
Qed.

Lemma traverse_app_Ok {A B} (f : A -> result B) l1 l2 ys :
  traverse f (l1 ++ l2) = Ok ys ->
  exists ys1 ys2, traverse f l1 = Ok ys1 /\ traverse f l2 = Ok ys2 /\ ys = ys1 ++ ys2.
Proof.
  revert ys; induction l1 as [|x l1 IH]; intros ys H.
  - exists [], ys. auto.
  - rewrite <- app_comm_cons in H.
    apply traverse_cons_Ok in H as (y & ys' & Hy & Hys & ->).
    apply IH in Hys as (ys1 & ys2 & H1 & H2 & ->).
    exists (y :: ys1), ys2. simpl. rewrite Hy, H1. auto.
Qed.

Lemma traverse_app {A B} (f : A -> result B) l1 l2 ys1 ys2 :
  traverse f l1 = Ok ys1 -> traverse f l2 = Ok ys2 ->
  traverse f (l1 ++ l2) = Ok (ys1 ++ ys2).
Proof.
  revert ys1; induction l1 as [|x l1 IH]; intros ys1 H1 H2.
  - injection H1 as <-. exact H2.
  - apply traverse_cons_Ok in H1 as (y & ys' & Hy & Hys & ->).
    simpl. rewrite Hy. simpl. rewrite (IH _ Hys H2). reflexivity.
Qed.

Lemma add_logs_nil st : add_logs [] st = st.
Proof. destruct st; unfold add_logs; simpl. rewrite app_nil_r. reflexivity. Qed.

Lemma add_logs_cons e es st : add_logs es (add_log e st) = add_logs (e :: es) st.
Proof. unfold add_logs, add_log; simpl. rewrite <- app_assoc. reflexivity. Qed.

(** Taking the lengths of the conversations, when they have one, does not
    raise. *)
Lemma has_conversation_sized item : has_conversation item = true -> sized item = true.
Proof.
  unfold has_conversation, sized.
  destruct (dict_get "conversation" item) as [[| | | |l|]|]; try discriminate.
  reflexivity.
Qed.

Lemma count_messages_sized items :
  forallb sized items = true -> exists n, count_messages items = Ok n.
Proof.
  unfold count_messages. intros H.
  assert (exists lens, traverse (fun item =>
            py_len (match dict_get "conversation" item with
                    | Some v => v | None => VList [] end)) items = Ok lens) as [lens ->].
  { induction items as [|item items IH]; [eexists; reflexivity|].
    simpl in H. apply andb_prop in H as [Hi Hs].
    destruct (IH Hs) as [lens Hl]. unfold sized in Hi.
    cbn [traverse].
    destruct (py_len _) as [n|e]; [|discriminate].
    cbn [rbind]. rewrite Hl. eexists; reflexivity. }
  eexists; reflexivity.
Qed.

(** In particular it can be when every item holds a list. *)
Lemma count_messages_Ok items :
  forallb has_conversation items = true -> exists n, count_messages items = Ok n.
Proof.
  intros H. apply count_messages_sized.
  apply forallb_forall. intros x Hx.
  apply has_conversation_sized. exact (proj1 (forallb_forall _ _) H x Hx).
Qed.

Section Runs.

Context (W : oracle).

(** The loop over the items computes the concatenation of what each item
    contributes and logs the items it passes over. *)
Lemma merge_items_run items : forall acc st per_agent,
  traverse (item_messages W) items = Ok per_agent ->
  merge_items W items acc st
  = (Ok (acc ++ concat per_agent), add_logs (passed_over items) st).
Proof.
  induction items as [|item items IH]; intros acc st per_agent H.
  - injection H as <-. simpl. unfold ret, passed_over. simpl.
    rewrite app_nil_r, add_logs_nil. reflexivity.
  - apply traverse_cons_Ok in H as (msgs & rest & Hitem & Hrest & ->).
    unfold item_messages in Hitem. unfold passed_over, has_conversation.
    cbn [merge_items List.filter].
    destruct (dict_get "conversation" item) as [[| | | |conversation|]|] eqn:E;
      try (injection Hitem as <-; unfold bind at 1, logger, modify; cbn [negb map];
           rewrite (IH _ _ _ Hrest); cbn [concat app];
           rewrite add_logs_cons; reflexivity).
    apply rbind_Ok in Hitem as (agent_id & Hagent & Hmsgs).
    unfold bind, lift. rewrite Hagent, Hmsgs. cbn [negb].
    rewrite (IH _ _ _ Hrest). cbn [concat]. rewrite app_assoc. reflexivity.
Qed.

(** The sweep touches nothing but the cache and does not fail. *)
Lemma _clean_cache_run t st :
  exists c, _clean_cache W t st = (Ok tt, set_cache c st).
Proof.
  unfold _clean_cache. destruct (hash_of_time W t mod 100 =? 0).
  - eexists; reflexivity.
  - exists (_chat_cache st). destruct st; reflexivity.
Qed.

(** [fetch_all_chats] when the cache does not answer and the query goes
    through: the merged view of the items the query returns. *)
Lemma fetch_all_chats_miss user_id session_id st n per_agent :
  cached (clock W (ticks st)) (user_id ++ ":" ++ session_id)%string (_chat_cache st) = None ->
  outage W (length (calls st)) = None ->
  count_messages (session_items user_id session_id st) = Ok n ->
  traverse (item_messages W) (session_items user_id session_id st) = Ok per_agent ->
  exists st',
    fetch_all_chats W user_id session_id st
    = (Ok (_remove_timestamps (sort_by_timestamp (concat per_agent))), st')
    /\ table st' = table st
    /\ calls st' = calls st ++ [Query user_id (session_id ++ "#")]
    /\ log st' = log st ++ passed_over (session_items user_id session_id st).
Proof.
  intros Hmiss Hup.
  unfold fetch_all_chats, try_except, bind at 1, time_time.
  unfold bind at 1, gets. cbn [ticks tick _chat_cache].
  rewrite Hmiss.
  unfold fetch_from_table, bind at 1, query, bind at 1, send.
  unfold tick at 1. cbn [calls]. rewrite Hup. unfold gets.
  change (table (add_call (Query user_id (session_id ++ "#")) (tick st)))
    with (table st).
  fold (session_items user_id session_id st).
  destruct (session_items user_id session_id st) as [|item items] eqn:E;
    intros Hcount Hitems.
  - injection Hitems as <-. unfold bind, remember, modify, ret. cbn.
    eexists; split; [reflexivity|]. cbn. rewrite app_nil_r. auto.
  - unfold bind at 1, lift. rewrite Hcount.
    unfold bind at 1. rewrite (merge_items_run [] _ Hitems).
    unfold bind at 1, remember, modify. unfold bind at 1.
    match goal with |- context [_clean_cache W ?t ?s] =>
      destruct (_clean_cache_run t s) as [c ->] end.
    unfold ret. cbn. eexists; split; [reflexivity|]. cbn. auto.
Qed.

End Runs.

(** ** The merged view is the sorted concatenation *)

(** C1.  When the cache does not answer, [fetch_all_chats] returns the
    messages of all the agents of the session, decoded and concatenated,
    sorted by ascending timestamp, with the timestamps removed.  In
    particular, with agent A holding [{user, "hi", t=1}] and agent B holding
    [{assistant, "hello", t=2}], it returns [{user, "hi"}] and then
    [{assistant, "[B] hello"}], in whichever order the table hands the two
    items over. *)
Theorem fetch_all_chats_sorted_concatenation :
  (forall W user_id session_id st per_agent,
     cached (clock W (ticks st)) (user_id ++ ":" ++ session_id)%string (_chat_cache st) = None ->
     outage W (length (calls st)) = None ->
     forallb has_conversation (session_items user_id session_id st) = true ->
     traverse (item_messages W) (session_items user_id session_id st) = Ok per_agent ->
     exists sorted,
       fst (fetch_all_chats W user_id session_id st) = Ok (_remove_timestamps sorted)
       /\ Permutation sorted (concat per_agent)
       /\ StronglySorted by_timestamp sorted)
  /\ (forall W, outage W 0 = None ->
        fst (fetch_all_chats W "u" "s" (fresh [item_A; item_B]))
        = Ok [mkConversationMessage (VStr "user") (text_block "hi");
              mkConversationMessage (VStr "assistant") (text_block "[B] hello")]
        /\ fst (fetch_all_chats W "u" "s" (fresh [item_B; item_A]))
           = Ok [mkConversationMessage (VStr "user") (text_block "hi");
                 mkConversationMessage (VStr "assistant") (text_block "[B] hello")]).
Proof.
  split.
  - intros W user_id session_id st per_agent Hmiss Hup Hlists Hitems.
    destruct (count_messages_Ok Hlists) as [n Hn].
    destruct (fetch_all_chats_miss Hmiss Hup Hn Hitems) as (st' & -> & _).
    exists (sort_by_timestamp (concat per_agent)).
    split; [reflexivity|].
    split; [apply sort_by_timestamp_perm | apply sort_by_timestamp_sorted].
  - intros W Hup. split.
    + destruct (@fetch_all_chats_miss W "u" "s" (fresh [item_A; item_B]) 2
                  [[mkTimestampedMessage (VStr "user") (text_block "hi") 1];
                   [mkTimestampedMessage (VStr "assistant") (text_block "[B] hello") 2]])
        as (st' & -> & _); try reflexivity. exact Hup.
    + destruct (@fetch_all_chats_miss W "u" "s" (fresh [item_B; item_A]) 2
                  [[mkTimestampedMessage (VStr "assistant") (text_block "[B] hello") 2];
                   [mkTimestampedMessage (VStr "user") (text_block "hi") 1]])
        as (st' & -> & _); try reflexivity. exact Hup.
Qed.

Lemma fetch_all_chats_sorted_concatenation_witness :
  exists sorted,
    fst (fetch_all_chats quiet "u" "s" (fresh [item_A; item_B]))
    = Ok (_remove_timestamps sorted)
    /\ Permutation sorted
         (concat [[mkTimestampedMessage (VStr "user") (text_block "hi") 1];
                  [mkTimestampedMessage (VStr "assistant") (text_block "[B] hello") 2]])
    /\ StronglySorted by_timestamp sorted.
Proof.
  apply (proj1 fetch_all_chats_sorted_concatenation quiet "u" "s"
           (fresh [item_A; item_B])); reflexivity.
Defined.

(** ** Frame properties *)


Section Frames.

Context {X : Type} (f : state -> X).

Lemma preserves_ret {A} (a : A) : preserves f (ret a).
Proof. intros st. reflexivity. Qed.

Lemma preserves_raise {A} e : preserves f (@raise A e).
Proof. intros st. reflexivity. Qed.

Lemma preserves_lift {A} (r : result A) : preserves f (lift r).
Proof. intros st. reflexivity. Qed.

Lemma preserves_gets {A} (g : state -> A) : preserves f (gets g).
Proof. intros st. reflexivity. Qed.

Lemma preserves_modify g : (forall st, f (g st) = f st) -> preserves f (modify g).
Proof. intros H st. apply H. Qed.

Lemma preserves_bind {A B} (m : M A) (k : A -> M B) :
  preserves f m -> (forall a, preserves f (k a)) -> preserves f (bind m k).
Proof.
  intros Hm Hk st. unfold bind. specialize (Hm st).
  destruct (m st) as [[a|e] st1]; simpl in *; [|exact Hm].
  rewrite Hk. exact Hm.
Qed.

Lemma preserves_try_except {A} (m : M A) (h : exn -> M A) :
  preserves f m -> (forall e, preserves f (h e)) -> preserves f (try_except m h).
Proof.
  intros Hm Hh st. unfold try_except. specialize (Hm st).
  destruct (m st) as [[a|e] st1]; simpl in *; [exact Hm|].
  rewrite Hh. exact Hm.
Qed.

Lemma preserves_mapM {A B} (g : A -> M B) l :
  (forall a, preserves f (g a)) -> preserves f (mapM g l).
Proof.
  intros Hg. induction l as [|x l IH]; simpl.
  - apply preserves_ret.
  - apply preserves_bind; [apply Hg|]. intros y.
    apply preserves_bind; [exact IH|]. intros ys. apply preserves_ret.
Qed.

Lemma preserves_time_time W :
  (forall st, f (tick st) = f st) -> preserves f (time_time W).
Proof. intros H st. apply H. Qed.

Lemma preserves_send W r :
  (forall st, f (add_call r st) = f st) -> preserves f (send W r).
Proof. intros H st. unfold send. destruct (outage W _); apply H. Qed.

End Frames.

(** Decompose a computation along its binds, handlers and branches. *)
Ltac frame :=
  repeat first
    [ apply preserves_ret | apply preserves_raise | apply preserves_lift
    | apply preserves_gets
    | apply preserves_modify; intros ?; reflexivity
    | apply preserves_time_time; intros ?; reflexivity
    | apply preserves_send; intros ?; reflexivity
    | apply preserves_bind; [|intros ?]
    | apply preserves_try_except; [|intros ?]
    | apply preserves_mapM; intros ?
    | match goal with
      | |- preserves _ (match ?x with _ => _ end) => destruct x
      end ].

Section FrameFacts.

Context (W : oracle) (self : DynamoDbChatStorage).

Lemma fetch_chat_with_timestamp_cache u s a :
  preserves _chat_cache (fetch_chat_with_timestamp W u s a).
Proof. unfold fetch_chat_with_timestamp, get_item, logger. frame. Qed.

Lemma fetch_chat_with_timestamp_table u s a :
  preserves table (fetch_chat_with_timestamp W u s a).
Proof. unfold fetch_chat_with_timestamp, get_item, logger. frame. Qed.

Lemma make_item_cache u k c : preserves _chat_cache (make_item W self u k c).
Proof. unfold make_item, add_ttl. frame. Qed.

Lemma put_item_cache item : preserves _chat_cache (put_item W item).
Proof. unfold put_item. frame. Qed.

Lemma merge_items_calls items : forall acc, preserves calls (merge_items W items acc).
Proof.
  induction items as [|item items IH]; intros acc; cbn [merge_items].
  - frame.
  - unfold logger. frame; apply IH.
Qed.

Lemma merge_items_table items : forall acc, preserves table (merge_items W items acc).
Proof.
  induction items as [|item items IH]; intros acc; cbn [merge_items].
  - frame.
  - unfold logger. frame; apply IH.
Qed.

End FrameFacts.

Lemma Qltb_lt x y : Qltb x y = true <-> (x < y)%Q.
Proof. unfold Qltb, Qlt. apply Z.ltb_lt. Qed.

Lemma Qltb_ge x y : Qltb x y = false <-> (y <= x)%Q.
Proof. unfold Qltb, Qle. apply Z.ltb_ge. Qed.

Section SaveRuns.

Context (W : oracle) (self : DynamoDbChatStorage).

(** A single-agent read sends one [GetItem] and nothing else. *)
Lemma fetch_chat_with_timestamp_calls u s a st :
  calls (snd (fetch_chat_with_timestamp W u s a st))
  = calls st ++ [GetItem u (_generate_key u s a)].
Proof.
  unfold fetch_chat_with_timestamp, try_except, bind, get_item, bind, send, gets,
    lift, logger, modify, ret, raise.
  destruct (outage W (length (calls st))); cbn; [reflexivity|].
  destruct (_dict_to_conversation _); reflexivity.
Qed.


(** Stamping the incoming message and building the item never fail and
    only read the clock. *)
Lemma stamp_incoming_run (m : message) st :
  exists t st',
    match m with Plain c => stamp_now W c | Stamped t => ret t end st = (Ok t, st')
    /\ clock_only st st'
    /\ role t = role_of m /\ content t = content_of m.
Proof.
  destruct m as [c|t].
  - eexists _, _. split; [reflexivity|]. repeat split.
  - eexists _, _. split; [reflexivity|]. repeat split.
Qed.

Lemma make_item_run u k c st :
  exists item st', make_item W self u k c st = (Ok item, st') /\ clock_only st st'.
Proof.
  unfold make_item, add_ttl.
  destruct (ttl_key self) as [key|]; [destruct (String.eqb key "")|];
    eexists _, _; (split; [reflexivity|]); repeat split.
Qed.

Lemma try_except_bind_Ok {A B} (m : M A) (k : A -> M B) h st a st1 :
  m st = (Ok a, st1) ->
  try_except (bind m k) h st = try_except (k a) h st1.
Proof. intros H. unfold try_except, bind. rewrite H. reflexivity. Qed.

(** The end of [save_chat_message]: the entry is deleted, then the item is
    written; the deletion stands whatever becomes of the write. *)
Lemma write_tail_cache cache_key item (r : list message) st :
  _chat_cache
    (snd (try_except
            (invalidate cache_key ;; put_item W item ;; ret r)%M
            (fun error => logger (ErrorSaving error) ;; raise error)%M st))
  = delete cache_key (_chat_cache st).
Proof.
  unfold try_except, invalidate, put_item, send, logger, modify, raise, ret, bind.
  cbn. destruct (outage W _); cbn; [reflexivity|].
  destruct (dict_get "PK" item) as [[]|]; try reflexivity.
  destruct (dict_get "SK" item) as [[]|]; reflexivity.
Qed.

(** The entry of a session is gone from the cache once a save has got past
    the check for a repeated role, whether or not the write then succeeds. *)
Lemma save_chat_message_invalidates u s a m max st existing :
  fst (fetch_chat_with_timestamp W u s a st) = Ok existing ->
  is_same_role_as_last_message existing m = false ->
  _chat_cache (snd (save_chat_message W self u s a m max st))
  = delete (u ++ ":" ++ s)%string (_chat_cache st).
Proof.
  intros Hread Hrole.
  pose proof (fetch_chat_with_timestamp_cache W u s a st) as Hcache.
  unfold save_chat_message.
  destruct (fetch_chat_with_timestamp W u s a st) as [[ex|e] st1] eqn:Hfetch;
    [|discriminate].
  cbn [fst snd] in *. injection Hread as ->.
  rewrite (try_except_bind_Ok _ _ Hfetch), Hrole.
  destruct (stamp_incoming_run m st1) as (t & st2 & Hstamp & (_ & Hc2 & _) & _).
  rewrite (try_except_bind_Ok _ _ Hstamp).
  match goal with |- context [make_item W self ?u ?k ?c] =>
    destruct (make_item_run u k c st2) as (item & st3 & Hitem & (_ & Hc3 & _)) end.
  rewrite (try_except_bind_Ok _ _ Hitem).
  rewrite write_tail_cache. congruence.
Qed.

(** The same end when the table is out at the write: the exception of the
    table is logged and raised again, the table is as it was. *)
Lemma write_tail_fails cache_key item (r : list message) st e :
  outage W (length (calls st)) = Some e ->
  try_except
    (invalidate cache_key ;; put_item W item ;; ret r)%M
    (fun error => logger (ErrorSaving error) ;; raise error)%M st
  = (Raise e,
     add_log (ErrorSaving e)
       (add_call (PutItem item) (set_cache (delete cache_key (_chat_cache st)) st))).
Proof.
  intros Hout.
  unfold try_except, invalidate, put_item, send, logger, modify, raise, ret, bind.
  cbn. rewrite Hout. reflexivity.
Qed.

(** [save_chat_message] past the check for a repeated role, with the table
    out at the write. *)
Lemma save_chat_message_write_fails u s a m max st existing e :
  fst (fetch_chat_with_timestamp W u s a st) = Ok existing ->
  is_same_role_as_last_message existing m = false ->
  outage W (S (length (calls st))) = Some e ->
  fst (save_chat_message W self u s a m max st) = Raise e
  /\ table (snd (save_chat_message W self u s a m max st)) = table st
  /\ last (log (snd (save_chat_message W self u s a m max st))) = Some (ErrorSaving e).
Proof.
  intros Hread Hrole Hout.
  pose proof (fetch_chat_with_timestamp_table W u s a st) as Htable.
  pose proof (fetch_chat_with_timestamp_calls u s a st) as Hcalls.
  unfold save_chat_message.
  destruct (fetch_chat_with_timestamp W u s a st) as [[ex|e'] st1] eqn:Hfetch;
    [|discriminate].
  cbn [fst snd] in *. injection Hread as ->.
  rewrite (try_except_bind_Ok _ _ Hfetch), Hrole.
  destruct (stamp_incoming_run m st1) as (t & st2 & Hstamp & (Ht2 & _ & Hk2 & _) & _).
  rewrite (try_except_bind_Ok _ _ Hstamp).
  match goal with |- context [make_item W self ?u ?k ?c] =>
    destruct (make_item_run u k c st2) as (item & st3 & Hitem & (Ht3 & _ & Hk3 & _)) end.
  rewrite (try_except_bind_Ok _ _ Hitem).
  rewrite write_tail_fails with (e := e).
  - cbn. split; [reflexivity|]. split; [congruence|]. apply last_snoc.
  - rewrite Hk3, Hk2, Hcalls, length_app. cbn.
    replace (length (calls st) + 1)%nat with (S (length (calls st))) by lia.
    exact Hout.
Qed.

(** [fetch_all_chats] when the cache does not answer: the table is asked. *)
Lemma fetch_all_chats_uncached u s st :
  cached (clock W (ticks st)) (u ++ ":" ++ s)%string (_chat_cache st) = None ->
  fetch_all_chats W u s st
  = try_except
      (fetch_from_table W u s (u ++ ":" ++ s)%string (clock W (ticks st)))
      (fun error => logger (ErrorQuerying error) ;; raise error)%M
      (tick st).
Proof.
  intros Hmiss.
  unfold fetch_all_chats, try_except, bind at 1, time_time.
  unfold bind at 1, gets. cbn [_chat_cache tick]. rewrite Hmiss. reflexivity.
Qed.

(** Asking the table sends exactly one request, the query for the session. *)
Lemma fetch_from_table_calls u s cache_key t st :
  calls (snd (try_except
                (fetch_from_table W u s cache_key t)
                (fun error => logger (ErrorQuerying error) ;; raise error)%M st))
  = calls st ++ [Query u (s ++ "#")].
Proof.
  unfold fetch_from_table, query.
  unfold try_except, bind at 1, bind at 1, send.
  destruct (outage W (length (calls st))); [reflexivity|].
  unfold gets. cbn [fst snd].
  match goal with |- context [add_call ?r st] => set (st1 := add_call r st) end.
  match goal with |- calls (snd (let (r, st') := ?k st1 in _)) = _ =>
    assert (Hk : preserves calls (try_except k
              (fun error => logger (ErrorQuerying error) ;; raise error)%M)) end.
  { unfold remember, _clean_cache, logger. frame. apply merge_items_calls. }
  specialize (Hk st1). unfold try_except in Hk. rewrite Hk. reflexivity.
Qed.

End SaveRuns.

Lemma dict_get_set k k' v d :
  dict_get k' (dict_set k v d) = if String.eqb k' k then Some v else dict_get k' d.
Proof.
  induction d as [|[k0 v0] d IH]; simpl.
  - destruct (String.eqb k' k); reflexivity.
  - destruct (String.eqb k k0) eqn:E0; simpl.
    + apply String.eqb_eq in E0 as <-.
      destruct (String.eqb k' k); reflexivity.
    + destruct (String.eqb k' k0) eqn:E1.
      * apply String.eqb_eq in E1 as ->.
        rewrite String.eqb_sym, E0. reflexivity.
      * exact IH.
Qed.

(** The key attributes of the item built by a save are the user and the key
    of the conversation, unless the expiry attribute is written over one of
    them. *)
Lemma make_item_keys W self u k c st item st' :
  make_item W self u k c st = (Ok item, st') ->
  (dict_get "PK" item = Some (VStr u) \/ exists n, dict_get "PK" item = Some (VNum n))
  /\ (dict_get "SK" item = Some (VStr k) \/ exists n, dict_get "SK" item = Some (VNum n)).
Proof.
  set (base := [("PK"%string, VStr u); ("SK"%string, VStr k);
                ("conversation"%string, conversation_to_dict c)]).
  assert (Hrun : exists item0 st0,
             make_item W self u k c st = (Ok item0, st0)
             /\ (item0 = base \/ exists key n, item0 = dict_set key (VNum n) base)).
  { unfold make_item, add_ttl. fold base.
    destruct (ttl_key self) as [key|]; [destruct (String.eqb key "")|];
      eexists _, _; (split; [reflexivity|]); eauto. }
  destruct Hrun as (item0 & st0 & -> & Hitem). intros [= -> ->].
  destruct Hitem as [->|(key & n & ->)]; [split; left; reflexivity|].
  rewrite !dict_get_set. split.
  - destruct (String.eqb "PK" key); [right; eauto | left; reflexivity].
  - destruct (String.eqb "SK" key); [right; eauto | left; reflexivity].
Qed.

Lemma find_table_put pk sk item t :
  has_key pk sk item = true ->
  List.find (has_key pk sk) (table_put pk sk item t) = Some item.
Proof.
  intros H. induction t as [|it t IH]; simpl.
  - rewrite H. reflexivity.
  - destruct (has_key pk sk it) eqn:E; simpl; [rewrite H | rewrite E]; auto.
Qed.

(** When the end of [save_chat_message] succeeds, the item is in the table. *)
Lemma write_tail_Ok W cache_key item (r r' : list message) st st' :
  try_except
    (invalidate cache_key ;; put_item W item ;; ret r)%M
    (fun error => logger (ErrorSaving error) ;; raise error)%M st
  = (Ok r', st') ->
  exists pk sk,
    dict_get "PK" item = Some (VStr pk) /\ dict_get "SK" item = Some (VStr sk)
    /\ table st' = table_put pk sk item (table st).
Proof.
  unfold try_except, invalidate, put_item, send, logger, modify, raise, ret, bind.
  cbn. destruct (outage W _); cbn; [discriminate|].
  destruct (dict_get "PK" item) as [[| | |pk| |]|]; try discriminate.
  destruct (dict_get "SK" item) as [[| | |sk| |]|]; try discriminate.
  intros [= _ <-]. exists pk, sk. auto.
Qed.

Lemma write_tail_calls W cache_key item (r : list message) st :
  calls
    (snd (try_except
            (invalidate cache_key ;; put_item W item ;; ret r)%M
            (fun error => logger (ErrorSaving error) ;; raise error)%M st))
  = calls st ++ [PutItem item].
Proof.
  unfold try_except, invalidate, put_item, send, logger, modify, raise, ret, bind.
  cbn. destruct (outage W _); cbn; [reflexivity|].
  destruct (dict_get "PK" item) as [[]|]; try reflexivity.
  destruct (dict_get "SK" item) as [[]|]; reflexivity.
Qed.

(** A save that gets past the check for a repeated role sends the read and
    then one write. *)
Lemma save_chat_message_calls W self u s a m max st existing :
  fst (fetch_chat_with_timestamp W u s a st) = Ok existing ->
  is_same_role_as_last_message existing m = false ->
  exists item,
    calls (snd (save_chat_message W self u s a m max st))
    = calls st ++ [GetItem u (_generate_key u s a); PutItem item].
Proof.
  intros Hread Hrole.
  pose proof (fetch_chat_with_timestamp_calls W u s a st) as Hcalls.
  unfold save_chat_message.
  destruct (fetch_chat_with_timestamp W u s a st) as [[ex|e'] st1] eqn:Hfetch;
    [|discriminate].
  cbn [fst snd] in *. injection Hread as ->.
  rewrite (try_except_bind_Ok _ _ Hfetch), Hrole.
  destruct (stamp_incoming_run W m st1) as (t & st2 & Hstamp & (_ & _ & Hk2 & _) & _).
  rewrite (try_except_bind_Ok _ _ Hstamp).
  match goal with |- context [make_item W self ?u ?k ?c] =>
    destruct (make_item_run W self u k c st2) as (item & st3 & Hitem & (_ & _ & Hk3 & _)) end.
  rewrite (try_except_bind_Ok _ _ Hitem).
  exists item. rewrite write_tail_calls, Hk3, Hk2, Hcalls, <- app_assoc. reflexivity.
Qed.

(** After a save that succeeds, a read of the conversation finds the item
    that was sent. *)
Lemma save_chat_message_written W self u s a m max st existing r st' :
  fst (fetch_chat_with_timestamp W u s a st) = Ok existing ->
  is_same_role_as_last_message existing m = false ->
  save_chat_message W self u s a m max st = (Ok r, st') ->
  exists item,
    calls st' = calls st ++ [GetItem u (_generate_key u s a); PutItem item]
    /\ List.find (has_key u (_generate_key u s a)) (table st') = Some item.
Proof.
  intros Hread Hrole Hsave.
  destruct (save_chat_message_calls self max Hread Hrole) as [item' Hcalls].
  rewrite Hsave in Hcalls. cbn [snd] in Hcalls.
  revert Hsave. unfold save_chat_message.
  destruct (fetch_chat_with_timestamp W u s a st) as [[ex|e'] st1] eqn:Hfetch;
    [|discriminate].
  cbn [fst snd] in *. injection Hread as ->.
  rewrite (try_except_bind_Ok _ _ Hfetch), Hrole.
  destruct (stamp_incoming_run W m st1) as (t & st2 & Hstamp & _).
  rewrite (try_except_bind_Ok _ _ Hstamp).
  match goal with |- context [make_item W self ?u ?k ?c] =>
    destruct (make_item_run W self u k c st2) as (item & st3 & Hitem & _) end.
  rewrite (try_except_bind_Ok _ _ Hitem).
  intros Htail.
  pose proof (write_tail_calls W (u ++ ":" ++ s)%string item
                (map Plain (_remove_timestamps
                   (trim_conversation (existing ++ [t]) max))) st3) as Hput.
  rewrite Htail in Hput. cbn [snd] in Hput.
  assert (item' = item) as ->.
  { rewrite Hcalls in Hput.
    assert (Hlast : last (calls st ++ [GetItem u (_generate_key u s a); PutItem item'])
                    = last (calls st3 ++ [PutItem item])) by (rewrite Hput; reflexivity).
    rewrite last_snoc in Hlast.
    change [GetItem u (_generate_key u s a); PutItem item']
      with ([GetItem u (_generate_key u s a)] ++ [PutItem item']) in Hlast.
    rewrite app_assoc, last_snoc in Hlast. congruence. }
  exists item. split; [exact Hcalls|].
  apply write_tail_Ok in Htail as (pk & sk & Hpk & Hsk & ->).
  destruct (make_item_keys Hitem) as [[Hu|[n Hn]] [Hk|[n' Hn']]]; try congruence.
  assert (pk = u) as -> by congruence.
  assert (sk = _generate_key u s a) as -> by congruence.
  apply find_table_put. unfold has_key. rewrite Hpk, Hsk, !String.eqb_refl. reflexivity.
Qed.

(** ** The cache and the two save methods *)

(** A [save_chat_message] that is not held back as a repeated role and
    succeeds has deleted the cache entry of its user and session, and the
    table holds the item it sent; the next [fetch_all_chats] of that session
    therefore does not answer from the cache: it does what it does on an
    empty cache and sends a query to the table. *)
Theorem save_chat_message_invalidates_cache
    W self user_id session_id agent_id new_message max_history_size st existing r st' :
  fst (fetch_chat_with_timestamp W user_id session_id agent_id st) = Ok existing ->
  is_same_role_as_last_message existing new_message = false ->
  save_chat_message W self user_id session_id agent_id new_message max_history_size st
  = (Ok r, st') ->
  _chat_cache st' !! (user_id ++ ":" ++ session_id)%string = None
  /\ (exists item,
        calls st' = calls st ++ [GetItem user_id (_generate_key user_id session_id agent_id);
                                 PutItem item]
        /\ List.find (has_key user_id (_generate_key user_id session_id agent_id))
                     (table st') = Some item)
  /\ fetch_all_chats W user_id session_id st'
     = try_except
         (fetch_from_table W user_id session_id (user_id ++ ":" ++ session_id)%string
            (clock W (ticks st')))
         (fun error => logger (ErrorQuerying error) ;; raise error)%M
         (tick st')
  /\ calls (snd (fetch_all_chats W user_id session_id st'))
     = calls st' ++ [Query user_id (session_id ++ "#")].
Proof.
  intros Hread Hrole Hsave.
  pose proof (save_chat_message_invalidates self max_history_size Hread Hrole) as Hcache.
  destruct (save_chat_message_written Hread Hrole Hsave) as (item & Hcalls & Hfind).
  rewrite Hsave in Hcache. cbn [snd] in Hcache.
  assert (Hgone : _chat_cache st' !! (user_id ++ ":" ++ session_id)%string = None).
  { rewrite Hcache. apply lookup_delete_eq. }
  assert (Hmiss : cached (clock W (ticks st')) (user_id ++ ":" ++ session_id)%string
                    (_chat_cache st') = None).
  { unfold cached. rewrite Hgone. reflexivity. }
  split; [exact Hgone|]. split; [eauto|].
  rewrite (fetch_all_chats_uncached Hmiss).
  split; [reflexivity|]. rewrite fetch_from_table_calls. reflexivity.
Qed.

Lemma save_chat_message_invalidates_cache_witness :
  _chat_cache
    (snd (save_chat_message quiet no_ttl "u" "s" "A"
            (Plain (mkConversationMessage (VStr "assistant") (VStr "ok"))) None
            (mkState [item_A] {[ "u:s"%string := mkCacheEntry 99 [] ]} [] [] 0)))
    !! "u:s"%string = None.
Proof.
  eapply (@save_chat_message_invalidates_cache quiet no_ttl "u" "s" "A"
            (Plain (mkConversationMessage (VStr "assistant") (VStr "ok"))) None
            (mkState [item_A] {[ "u:s"%string := mkCacheEntry 99 [] ]} [] [] 0)).
  - reflexivity.
  - reflexivity.
  - reflexivity.
Defined.

(** A merged view is read, agent B saves a reply two seconds later, and the
    view is read again within the time-to-live: the second read shows the
    reply. *)
Example fetch_save_fetch :
  fst (fetch_all_chats quiet "u" "s"
         (snd (save_chat_message quiet no_ttl "u" "s" "B"
                 (Plain (mkConversationMessage (VStr "assistant") (VStr "hello"))) None
                 (snd (fetch_all_chats quiet "u" "s" (fresh [item_A]))))))
  = Ok [mkConversationMessage (VStr "user") (text_block "hi");
        mkConversationMessage (VStr "assistant") (text_block "[B] hello")].
Proof. reflexivity. Qed.

(** The same with the reply saved through [save_chat_messages]: the second
    read is answered from the cache and does not show the reply. *)
Example fetch_save_bulk_fetch :
  fst (fetch_all_chats quiet "u" "s"
         (snd (save_chat_messages quiet no_ttl "u" "s" "B"
                 [Plain (mkConversationMessage (VStr "assistant") (VStr "hello"))] None
                 (snd (fetch_all_chats quiet "u" "s" (fresh [item_A]))))))
  = Ok [mkConversationMessage (VStr "user") (text_block "hi")].
Proof. reflexivity. Qed.

(** C6.  [save_chat_messages] never touches the cache: whatever the call
    does and however it ends, the cache, and with it the entry of the user
    and session if there is one, is the same after the call as before. *)
Theorem save_chat_messages_keeps_cache
    W self user_id session_id agent_id new_messages max_history_size st :
  _chat_cache
    (snd (save_chat_messages W self user_id session_id agent_id new_messages
            max_history_size st))
  = _chat_cache st.
Proof.
  revert st. change (preserves _chat_cache
    (save_chat_messages W self user_id session_id agent_id new_messages max_history_size)).
  unfold save_chat_messages, fetch_chat_with_timestamp, get_item, make_item, add_ttl,
    put_item, stamp_now, logger.
  frame.
Qed.

(** C7.  [save_chat_messages] with an empty batch fails: once the stored
    conversation has been read, taking the first message of the batch raises
    [IndexError], the exception that stands for the spec's InvalidArgument;
    a failure of the read itself comes first.  Nothing is written. *)
Theorem save_chat_messages_empty_batch
    W self user_id session_id agent_id max_history_size st :
  fst (save_chat_messages W self user_id session_id agent_id [] max_history_size st)
  = match fst (fetch_chat_with_timestamp W user_id session_id agent_id st) with
    | Ok _ => Raise IndexError
    | Raise e => Raise e
    end
  /\ table (snd (save_chat_messages W self user_id session_id agent_id []
                   max_history_size st)) = table st
  /\ calls (snd (save_chat_messages W self user_id session_id agent_id []
                   max_history_size st))
     = calls st ++ [GetItem user_id (_generate_key user_id session_id agent_id)].
Proof.
  pose proof (fetch_chat_with_timestamp_table W user_id session_id agent_id st) as Ht.
  pose proof (fetch_chat_with_timestamp_calls W user_id session_id agent_id st) as Hc.
  assert (E : save_chat_messages W self user_id session_id agent_id [] max_history_size st
              = (match fst (fetch_chat_with_timestamp W user_id session_id agent_id st) with
                 | Ok _ => Raise IndexError
                 | Raise e => Raise e
                 end,
                 snd (fetch_chat_with_timestamp W user_id session_id agent_id st))).
  { unfold save_chat_messages, bind at 1.
    destruct (fetch_chat_with_timestamp W user_id session_id agent_id st) as [[ex|e] st1];
      reflexivity. }
  rewrite E. cbn [fst snd]. auto.
Qed.

(** ** Expiry of a cache entry *)

(** A cache entry younger than the time-to-live answers the call: no request
    is sent and the state changes by the clock reading only. *)
Lemma fetch_all_chats_hit W user_id session_id st entry :
  _chat_cache st !! (user_id ++ ":" ++ session_id)%string = Some entry ->
  (clock W (ticks st) - ce_timestamp entry < _cache_ttl)%Q ->
  fetch_all_chats W user_id session_id st = (Ok (ce_data entry), tick st).
Proof.
  intros Hentry Hage.
  unfold fetch_all_chats, try_except, bind at 1, time_time.
  unfold bind at 1, gets. cbn [_chat_cache tick]. unfold cached.
  rewrite Hentry. apply Qltb_lt in Hage. rewrite Hage. reflexivity.
Qed.

(** C8.  A cache entry whose age has reached the time-to-live is never
    served: when the time read by the call is [_cache_ttl] or more after the
    entry's time, [fetch_all_chats] does what it does on an empty cache, and
    sends a query to the table, although nothing has been written since.
    What it returns does not depend on the data of the entry: it is the view
    merged from the items the query returns, or the exception of the query
    when the table is out. *)
Theorem fetch_all_chats_expired_entry W user_id session_id st entry :
  _chat_cache st !! (user_id ++ ":" ++ session_id)%string = Some entry ->
  (_cache_ttl <= clock W (ticks st) - ce_timestamp entry)%Q ->
  fetch_all_chats W user_id session_id st
  = try_except
      (fetch_from_table W user_id session_id (user_id ++ ":" ++ session_id)%string
         (clock W (ticks st)))
      (fun error => logger (ErrorQuerying error) ;; raise error)%M
      (tick st)
  /\ calls (snd (fetch_all_chats W user_id session_id st))
     = calls st ++ [Query user_id (session_id ++ "#")]
  /\ (forall n per_agent,
        outage W (length (calls st)) = None ->
        count_messages (session_items user_id session_id st) = Ok n ->
        traverse (item_messages W) (session_items user_id session_id st) = Ok per_agent ->
        fst (fetch_all_chats W user_id session_id st)
        = Ok (_remove_timestamps (sort_by_timestamp (concat per_agent))))
  /\ (forall e,
        outage W (length (calls st)) = Some e ->
        fst (fetch_all_chats W user_id session_id st) = Raise e).
Proof.
  intros Hentry Hage.
  assert (Hmiss : cached (clock W (ticks st)) (user_id ++ ":" ++ session_id)%string
                    (_chat_cache st) = None).
  { unfold cached. rewrite Hentry. apply Qltb_ge in Hage. rewrite Hage. reflexivity. }
  split; [exact (fetch_all_chats_uncached Hmiss)|].
  split; [rewrite (fetch_all_chats_uncached Hmiss), fetch_from_table_calls; reflexivity|].
  split.
  - intros n per_agent Hup Hcount Hitems.
    destruct (fetch_all_chats_miss Hmiss Hup Hcount Hitems) as (st' & -> & _).
    reflexivity.
  - intros e Hout. rewrite (fetch_all_chats_uncached Hmiss).
    unfold fetch_from_table, try_except, bind at 1, query, bind at 1, send.
    unfold tick at 1. cbn [calls]. rewrite Hout. reflexivity.
Qed.

Lemma fetch_all_chats_expired_entry_witness :
  calls (snd (fetch_all_chats quiet "u" "s" expired_cached)) = [Query "u" "s#"]
  /\ fst (fetch_all_chats quiet "u" "s" expired_cached)
     = Ok [mkConversationMessage (VStr "user") (text_block "hi")].
Proof.
  edestruct (@fetch_all_chats_expired_entry quiet "u" "s" expired_cached)
    as (_ & Hcalls & Hview & _).
  - reflexivity.
  - vm_compute. discriminate.
  - split; [exact Hcalls|].
    apply (Hview 1 [[mkTimestampedMessage (VStr "user") (text_block "hi") 1]]);
      reflexivity.
Defined.

(** ** A save whose write fails *)

(** C9.  In [save_chat_message] the cache entry of the user and session is
    deleted before the item is written: when the write fails, the exception
    is raised again, the table is as it was, and the entry is already gone
    from the cache. *)
Theorem save_chat_message_failed_write_drops_entry
    W self user_id session_id agent_id new_message max_history_size st existing e :
  fst (fetch_chat_with_timestamp W user_id session_id agent_id st) = Ok existing ->
  is_same_role_as_last_message existing new_message = false ->
  outage W (S (length (calls st))) = Some e ->
  fst (save_chat_message W self user_id session_id agent_id new_message
         max_history_size st) = Raise e
  /\ _chat_cache
       (snd (save_chat_message W self user_id session_id agent_id new_message
               max_history_size st))
       !! (user_id ++ ":" ++ session_id)%string = None
  /\ table (snd (save_chat_message W self user_id session_id agent_id new_message
                   max_history_size st)) = table st.
Proof.
  intros Hread Hrole Hout.
  destruct (save_chat_message_write_fails self max_history_size Hread Hrole Hout)
    as (Hres & Htable & _).
  split; [exact Hres|]. split; [|exact Htable].
  rewrite (save_chat_message_invalidates self max_history_size Hread Hrole).
  apply lookup_delete_eq.
Qed.

Lemma save_chat_message_failed_write_drops_entry_witness :
  fst (save_chat_message second_request_fails no_ttl "u" "s" "A"
         (Plain (mkConversationMessage (VStr "assistant") (VStr "ok"))) None
         (mkState [item_A] {[ "u:s"%string := mkCacheEntry 99 [] ]} [] [] 0))
  = Raise (StoreError "down")
  /\ _chat_cache
       (snd (save_chat_message second_request_fails no_ttl "u" "s" "A"
               (Plain (mkConversationMessage (VStr "assistant") (VStr "ok"))) None
               (mkState [item_A] {[ "u:s"%string := mkCacheEntry 99 [] ]} [] [] 0)))
       !! "u:s"%string = None
  /\ table
       (snd (save_chat_message second_request_fails no_ttl "u" "s" "A"
               (Plain (mkConversationMessage (VStr "assistant") (VStr "ok"))) None
               (mkState [item_A] {[ "u:s"%string := mkCacheEntry 99 [] ]} [] [] 0)))
     = [item_A].
Proof.
  apply (@save_chat_message_failed_write_drops_entry second_request_fails no_ttl
           "u" "s" "A" (Plain (mkConversationMessage (VStr "assistant") (VStr "ok")))
           None (mkState [item_A] {[ "u:s"%string := mkCacheEntry 99 [] ]} [] [] 0)
           [mkTimestampedMessage (VStr "user") (VStr "hi") (VNum 1)]
           (StoreError "down")); reflexivity.
Defined.

(** ** A repeated role *)

(** When the stored conversation ends with the role of the incoming message,
    [save_chat_message] sends the read and nothing else, leaves the table and
    the cache as they were, and returns the stored conversation as it was
    read: a list of timestamped messages. *)
Lemma save_chat_message_suppressed W self u s a m max st existing :
  fst (fetch_chat_with_timestamp W u s a st) = Ok existing ->
  is_same_role_as_last_message existing m = true ->
  fst (save_chat_message W self u s a m max st) = Ok (map Stamped existing)
  /\ table (snd (save_chat_message W self u s a m max st)) = table st
  /\ _chat_cache (snd (save_chat_message W self u s a m max st)) = _chat_cache st
  /\ calls (snd (save_chat_message W self u s a m max st))
     = calls st ++ [GetItem u (_generate_key u s a)].
Proof.
  intros Hread Hrole.
  pose proof (fetch_chat_with_timestamp_table W u s a st) as Ht.
  pose proof (fetch_chat_with_timestamp_cache W u s a st) as Hc.
  pose proof (fetch_chat_with_timestamp_calls W u s a st) as Hk.
  unfold save_chat_message.
  destruct (fetch_chat_with_timestamp W u s a st) as [[ex|e'] st1] eqn:Hfetch;
    [|discriminate].
  cbn [fst snd] in *. injection Hread as ->.
  rewrite (try_except_bind_Ok _ _ Hfetch), Hrole.
  cbn. auto.
Qed.

(** C2 (the code departs from the claim).  Agent A's stored conversation is
    [{user, "hi", t=1}] and a second user message arrives: the call writes
    nothing and leaves the table as it was, but what it returns is the stored
    conversation with its timestamp, not the conversation with the timestamps
    removed that the other exit of the method returns. *)
Theorem save_chat_message_repeated_role_returns_timestamps :
  fst (save_chat_message quiet no_ttl "u" "s" "A"
         (Plain (mkConversationMessage (VStr "user") (VStr "again"))) None
         (fresh [item_A]))
  = Ok [Stamped (mkTimestampedMessage (VStr "user") (VStr "hi") (VNum 1))]
  /\ fst (save_chat_message quiet no_ttl "u" "s" "A"
            (Plain (mkConversationMessage (VStr "user") (VStr "again"))) None
            (fresh [item_A]))
     <> Ok (map Plain (_remove_timestamps
                         [mkTimestampedMessage (VStr "user") (VStr "hi") (VNum 1)]))
  /\ table (snd (save_chat_message quiet no_ttl "u" "s" "A"
                   (Plain (mkConversationMessage (VStr "user") (VStr "again"))) None
                   (fresh [item_A])))
     = [item_A]
  /\ calls (snd (save_chat_message quiet no_ttl "u" "s" "A"
                   (Plain (mkConversationMessage (VStr "user") (VStr "again"))) None
                   (fresh [item_A])))
     = [GetItem "u" "s#A"].
Proof.
  repeat split; try reflexivity.
  vm_compute. discriminate.
Qed.

(** ** Tagging the replies of the agents *)


Lemma split_not_nil sep s : split sep s <> [].
Proof.
  destruct s as [|c s]; simpl; [discriminate|].
  destruct (Ascii.eqb c sep); [discriminate|].
  destruct (split sep s); discriminate.
Qed.

Lemma split_without sep s : contains sep s = false -> split sep s = [s].
Proof.
  induction s as [|c s IH]; simpl; [reflexivity|].
  intros H. apply orb_false_elim in H as [Hc Hs].
  rewrite Hc, (IH Hs). reflexivity.
Qed.

Lemma split_at_first sep s rest :
  contains sep s = false ->
  split sep (s ++ String sep rest) = s :: split sep rest.
Proof.
  induction s as [|c s IH]; simpl.
  - intros _. rewrite Ascii.eqb_refl. reflexivity.
  - intros H. apply orb_false_elim in H as [Hc Hs].
    rewrite Hc, (IH Hs). reflexivity.
Qed.

(** The second field of the key of a conversation is the agent. *)
Lemma agent_id_of_key item user_id session_id agent_id :
  contains "#" session_id = false ->
  contains "#" agent_id = false ->
  dict_get "SK" item = Some (VStr (_generate_key user_id session_id agent_id)) ->
  agent_id_of item = Ok agent_id.
Proof.
  intros Hs Ha Hsk. unfold agent_id_of, getitem. rewrite Hsk. cbn [rbind].
  unfold _generate_key.
  change (session_id ++ "#" ++ agent_id)%string
    with (session_id ++ String "#" agent_id)%string.
  rewrite (split_at_first _ Hs), (split_without Ha). reflexivity.
Qed.

Lemma is_assistant_true r : is_assistant r = true <-> r = VStr "assistant".
Proof.
  destruct r; simpl; try (split; [discriminate | intros [=]]).
  unfold ASSISTANT. rewrite String.eqb_eq. split; [intros ->; reflexivity | intros [=]; assumption].
Qed.

Lemma is_assistant_false r : r <> VStr "assistant" -> is_assistant r = false.
Proof.
  intros H. destruct (is_assistant r) eqn:E; [|reflexivity].
  apply is_assistant_true in E. contradiction.
Qed.

(** The steps of the merge.  The agent of an item is the
    second field of its sort key split at "#" (the agent of the
    conversation, when neither the session nor the agent contains "#"), and
    the loop decodes every message of the item with that agent.  A message
    whose role is assistant gets as content the single text block whose text
    is "[", the agent, "] " and the text of its first block (or its content
    itself when the content is not a list).  A message of any other role is
    not tagged: a list content is kept, any other content becomes one text
    block holding it. *)
Theorem merge_tags_assistant_messages :
  (forall item sk, dict_get "SK" item = Some (VStr sk) ->
     agent_id_of item = list_index (split "#" sk) 1)
  /\ (forall item user_id session_id agent_id,
        contains "#" session_id = false -> contains "#" agent_id = false ->
        dict_get "SK" item = Some (VStr (_generate_key user_id session_id agent_id)) ->
        agent_id_of item = Ok agent_id)
  /\ (forall W item items acc conversation st,
        dict_get "conversation" item = Some (VList conversation) ->
        merge_items W (item :: items) acc st
        = (agent_id <- lift (agent_id_of item) ;;
           msgs <- lift (traverse (merge_message W agent_id) conversation) ;;
           merge_items W items (acc ++ msgs))%M st)
  /\ (forall W agent_id msg block rest text stamp t,
        getitem msg "role" = Ok (VStr "assistant") ->
        getitem msg "content" = Ok (VList (block :: rest)) ->
        getitem block "text" = Ok text ->
        getitem msg "timestamp" = Ok stamp -> py_int W stamp = Ok t ->
        merge_message W agent_id msg
        = Ok (mkTimestampedMessage (VStr "assistant")
                (VList [VDict [("text", VStr ("[" ++ agent_id ++ "] " ++ format W text))]])
                t))
  /\ (forall W agent_id msg c stamp t,
        getitem msg "role" = Ok (VStr "assistant") ->
        getitem msg "content" = Ok c -> (forall l, c <> VList l) ->
        getitem msg "timestamp" = Ok stamp -> py_int W stamp = Ok t ->
        merge_message W agent_id msg
        = Ok (mkTimestampedMessage (VStr "assistant")
                (VList [VDict [("text", VStr ("[" ++ agent_id ++ "] " ++ format W c))]])
                t))
  /\ (forall W agent_id msg r c stamp t,
        getitem msg "role" = Ok r -> r <> VStr "assistant" ->
        getitem msg "content" = Ok c ->
        getitem msg "timestamp" = Ok stamp -> py_int W stamp = Ok t ->
        merge_message W agent_id msg
        = Ok (mkTimestampedMessage r (normalize_content c) t)).
Proof.
  repeat apply conj.
  - intros item sk Hsk. unfold agent_id_of, getitem. rewrite Hsk. reflexivity.
  - intros item user_id session_id agent_id. apply agent_id_of_key.
  - intros W item items acc conversation st Hconv.
    cbn [merge_items]. rewrite Hconv. reflexivity.
  - intros W agent_id msg block rest text stamp t Hrole Hcontent Htext Hstamp Ht.
    unfold merge_message. rewrite Hcontent, Hrole. cbn [rbind is_assistant].
    unfold ASSISTANT. rewrite String.eqb_refl.
    unfold first_text, list_index. cbn [lookup list_lookup rbind].
    rewrite Htext. cbn [rbind]. rewrite Hstamp. cbn [rbind]. rewrite Ht. reflexivity.
  - intros W agent_id msg c stamp t Hrole Hcontent Hc Hstamp Ht.
    unfold merge_message. rewrite Hcontent, Hrole. cbn [rbind is_assistant].
    unfold ASSISTANT. rewrite String.eqb_refl.
    assert (first_text c = Ok c) as ->.
    { destruct c; try reflexivity. exfalso. eapply Hc. reflexivity. }
    cbn [rbind]. rewrite Hstamp. cbn [rbind]. rewrite Ht. reflexivity.
  - intros W agent_id msg r c stamp t Hrole Hr Hcontent Hstamp Ht.
    unfold merge_message. rewrite Hcontent, Hrole. cbn [rbind].
    rewrite (is_assistant_false Hr). cbn [rbind].
    rewrite Hstamp. cbn [rbind]. rewrite Ht. reflexivity.
Qed.

Lemma merge_tags_assistant_messages_witness :
  agent_id_of item_B = Ok "B"%string
  /\ merge_message quiet "B" (record "assistant" (text_block "hello") 2)
     = Ok (mkTimestampedMessage (VStr "assistant") (text_block "[B] hello") 2)
  /\ merge_message quiet "A" (record "user" (VStr "hi") 1)
     = Ok (mkTimestampedMessage (VStr "user") (text_block "hi") 1).
Proof.
  destruct merge_tags_assistant_messages as (_ & Hagent & _ & Hlist & _ & Hother).
  split; [|split].
  - apply (Hagent item_B "u"%string "s"%string "B"%string); reflexivity.
  - apply (Hlist quiet "B"%string (record "assistant" (text_block "hello") 2)
             (VDict [("text"%string, VStr "hello")]) [] (VStr "hello") (VNum 2) 2);
      reflexivity.
  - apply (Hother quiet "A"%string (record "user" (VStr "hi") 1)
             (VStr "user") (VStr "hi") (VNum 1) 1);
      try reflexivity. discriminate.
Defined.

(** ** Items the merge cannot use *)



Lemma passed_over_none items :
  forallb has_conversation items = true -> passed_over items = [].
Proof.
  unfold passed_over. induction items as [|item items IH]; [reflexivity|].
  simpl. intros H. apply andb_prop in H as [Hi Hs]. rewrite Hi. cbn [negb].
  exact (IH Hs).
Qed.

Lemma passed_over_app l1 l2 : passed_over (l1 ++ l2) = passed_over l1 ++ passed_over l2.
Proof. unfold passed_over. rewrite List.filter_app, map_app. reflexivity. Qed.

(** A message with role assistant and an empty list as content cannot be
    merged: taking its first block raises. *)
Lemma merge_message_empty_content W agent_id msg :
  getitem msg "content" = Ok (VList []) ->
  getitem msg "role" = Ok (VStr "assistant") ->
  merge_message W agent_id msg = Raise IndexError.
Proof.
  intros Hcontent Hrole. unfold merge_message. rewrite Hcontent, Hrole. reflexivity.
Qed.

(** C4 (as the claim states it, refuted).  Agent A's item holds a record
    without timestamp, which [_dict_to_conversation] refuses, and agent B's
    item is sound: alone it merges, but with A's item in the session the
    whole call fails, whichever item comes first. *)
Lemma fetch_all_chats_malformed_record_is_fatal :
  _dict_to_conversation (VList [VDict [("role", VStr "user"); ("content", VStr "hi")]])
  = Raise (KeyError "timestamp")
  /\ fst (fetch_all_chats quiet "u" "s" (fresh [item_B]))
     = Ok [mkConversationMessage (VStr "assistant") (text_block "[B] hello")]
  /\ fst (fetch_all_chats quiet "u" "s" (fresh [item_without_timestamp; item_B]))
     = Raise (KeyError "timestamp")
  /\ fst (fetch_all_chats quiet "u" "s" (fresh [item_B; item_without_timestamp]))
     = Raise (KeyError "timestamp").
Proof. repeat split; reflexivity. Qed.

(** C4 (amended).  An item that holds under [conversation] no list but
    something of which the length can be taken (nothing, a string or a map)
    is passed over and logged; when the other items of the session hold
    lists that decode, the call succeeds and returns the merged view of the
    other items. *)
Theorem fetch_all_chats_passes_over_item
    W user_id session_id st before bad after per_agent :
  cached (clock W (ticks st)) (user_id ++ ":" ++ session_id)%string (_chat_cache st) = None ->
  outage W (length (calls st)) = None ->
  session_items user_id session_id st = before ++ bad :: after ->
  has_conversation bad = false ->
  sized bad = true ->
  forallb has_conversation (before ++ after) = true ->
  traverse (item_messages W) (before ++ after) = Ok per_agent ->
  exists st',
    fetch_all_chats W user_id session_id st
    = (Ok (_remove_timestamps (sort_by_timestamp (concat per_agent))), st')
    /\ log st' = log st ++ [ErrorUnexpectedItem bad].
Proof.
  intros Hmiss Hup Hitems Hbad Hsized Hlists Hothers.
  apply traverse_app_Ok in Hothers as (pa1 & pa2 & H1 & H2 & ->).
  rewrite forallb_app in Hlists. apply andb_prop in Hlists as [Hl1 Hl2].
  assert (Hall : traverse (item_messages W) (session_items user_id session_id st)
                 = Ok (pa1 ++ [] :: pa2)).
  { rewrite Hitems. apply traverse_app; [exact H1|].
    cbn [traverse]. unfold item_messages at 1. unfold has_conversation in Hbad.
    destruct (dict_get "conversation" bad) as [[| | | |l|]|]; try discriminate;
      cbn [rbind]; rewrite H2; reflexivity. }
  destruct (@count_messages_sized (session_items user_id session_id st)) as [n Hn].
  { rewrite Hitems, forallb_app. cbn [forallb].
    rewrite Hsized.
    rewrite (proj2 (forallb_forall _ _) (fun x Hx =>
               has_conversation_sized (proj1 (forallb_forall _ _) Hl1 x Hx))).
    rewrite (proj2 (forallb_forall _ _) (fun x Hx =>
               has_conversation_sized (proj1 (forallb_forall _ _) Hl2 x Hx))).
    reflexivity. }
  destruct (fetch_all_chats_miss Hmiss Hup Hn Hall) as (st' & Hrun & _ & _ & Hlog).
  exists st'. split.
  - rewrite Hrun. rewrite !concat_app. reflexivity.
  - rewrite Hlog, Hitems, passed_over_app.
    change (bad :: after) with ([bad] ++ after). rewrite passed_over_app.
    rewrite (passed_over_none Hl1), (passed_over_none Hl2).
    unfold passed_over. cbn [List.filter]. rewrite Hbad. reflexivity.
Qed.

Lemma fetch_all_chats_passes_over_item_witness :
  exists st',
    fetch_all_chats quiet "u" "s" (fresh [item_without_list; item_B])
    = (Ok (_remove_timestamps (sort_by_timestamp (concat
             [[mkTimestampedMessage (VStr "assistant") (text_block "[B] hello") 2]]))),
       st')
    /\ log st' = log (fresh [item_without_list; item_B])
                 ++ [ErrorUnexpectedItem (project item_without_list)].
Proof.
  apply (@fetch_all_chats_passes_over_item quiet "u" "s"
           (fresh [item_without_list; item_B]) [] (project item_without_list)
           [project item_B]); reflexivity.
Defined.

(** C10.  There is a stored conversation on which [fetch_all_chats] fails
    instead of returning: agent B's only message has the role assistant and
    the empty list as content, and the merge raises [IndexError] when it
    takes the first block. *)
Theorem fetch_all_chats_empty_content_raises :
  dict_get "conversation" item_empty_content
  = Some (VList [VDict [("role", VStr "assistant"); ("content", VList []);
                        ("timestamp", VNum 2)]])
  /\ fst (fetch_all_chats quiet "u" "s" (fresh [item_empty_content]))
     = Raise IndexError
  /\ _chat_cache (snd (fetch_all_chats quiet "u" "s" (fresh [item_empty_content]))) = ∅.
Proof. repeat split; reflexivity. Qed.

(** ** Single-agent reads *)

(** What a single-agent read does, step by step. *)
Lemma fetch_chat_with_timestamp_run W u s a st :
  fetch_chat_with_timestamp W u s a st
  = match outage W (length (calls st)) with
    | Some e =>
        (Raise e, add_log (ErrorGetting e) (add_call (GetItem u (_generate_key u s a)) st))
    | None =>
        match _dict_to_conversation
                (stored_conversation
                   (List.find (has_key u (_generate_key u s a)) (table st))) with
        | Ok l => (Ok l, add_call (GetItem u (_generate_key u s a)) st)
        | Raise e =>
            (Raise e,
             add_log (ErrorGetting e) (add_call (GetItem u (_generate_key u s a)) st))
        end
    end.
Proof.
  unfold fetch_chat_with_timestamp, try_except, bind, get_item, bind, send, gets,
    lift, logger, modify, ret, raise.
  destruct (outage W (length (calls st))); cbn; [reflexivity|].
  destruct (_dict_to_conversation _); reflexivity.
Qed.

(** The same for the read that removes the timestamps. *)
Lemma fetch_chat_run W u s a st :
  fetch_chat W u s a st
  = match outage W (length (calls st)) with
    | Some e =>
        (Raise e, add_log (ErrorFetching e) (add_call (GetItem u (_generate_key u s a)) st))
    | None =>
        match _dict_to_conversation
                (stored_conversation
                   (List.find (has_key u (_generate_key u s a)) (table st))) with
        | Ok l => (Ok (_remove_timestamps l), add_call (GetItem u (_generate_key u s a)) st)
        | Raise e =>
            (Raise e,
             add_log (ErrorFetching e) (add_call (GetItem u (_generate_key u s a)) st))
        end
    end.
Proof.
  unfold fetch_chat, try_except, bind, get_item, bind, send, gets,
    lift, logger, modify, ret, raise.
  destruct (outage W (length (calls st))); cbn; [reflexivity|].
  destruct (_dict_to_conversation _); reflexivity.
Qed.

(** X1.  [fetch_chat] is [fetch_chat_with_timestamp] followed by
    [_remove_timestamps]: the two send the same request, fail on the same
    states with the same exception, and leave the same table, cache and
    clock; when they succeed the one returns the messages of the other
    without their timestamps.  Each logs a failure once and a success not at
    all; the two log lines are different ones (source lines 152 and 169
    differ by a space). *)
Theorem fetch_chat_strips_fetch_chat_with_timestamp W user_id session_id agent_id st :
  fst (fetch_chat W user_id session_id agent_id st)
  = match fst (fetch_chat_with_timestamp W user_id session_id agent_id st) with
    | Ok stored_messages => Ok (_remove_timestamps stored_messages)
    | Raise e => Raise e
    end
  /\ table (snd (fetch_chat W user_id session_id agent_id st))
     = table (snd (fetch_chat_with_timestamp W user_id session_id agent_id st))
  /\ _chat_cache (snd (fetch_chat W user_id session_id agent_id st))
     = _chat_cache (snd (fetch_chat_with_timestamp W user_id session_id agent_id st))
  /\ calls (snd (fetch_chat W user_id session_id agent_id st))
     = calls (snd (fetch_chat_with_timestamp W user_id session_id agent_id st))
  /\ ticks (snd (fetch_chat W user_id session_id agent_id st))
     = ticks (snd (fetch_chat_with_timestamp W user_id session_id agent_id st))
  /\ log (snd (fetch_chat W user_id session_id agent_id st))
     = match fst (fetch_chat_with_timestamp W user_id session_id agent_id st) with
       | Ok _ => log st
       | Raise e => log st ++ [ErrorFetching e]
       end
  /\ log (snd (fetch_chat_with_timestamp W user_id session_id agent_id st))
     = match fst (fetch_chat_with_timestamp W user_id session_id agent_id st) with
       | Ok _ => log st
       | Raise e => log st ++ [ErrorGetting e]
       end.
Proof.
  rewrite fetch_chat_run, fetch_chat_with_timestamp_run.
  destruct (outage W (length (calls st))); [repeat split|].
  destruct (_dict_to_conversation _); repeat split.
Qed.

(** X2.  Reading a conversation that was never saved is not an error: when
    the table answers and holds no item under the key, or an item without a
    [conversation] attribute, [fetch_chat] returns the empty list, having
    sent one [GetItem] and logged nothing. *)
Theorem fetch_chat_of_missing_item W user_id session_id agent_id st :
  outage W (length (calls st)) = None ->
  (forall item,
     List.find (has_key user_id (_generate_key user_id session_id agent_id)) (table st)
     = Some item ->
     dict_get "conversation" item = None) ->
  fetch_chat W user_id session_id agent_id st
  = (Ok [], add_call (GetItem user_id (_generate_key user_id session_id agent_id)) st).
Proof.
  intros Hup Hnone.
  rewrite fetch_chat_run, Hup.
  unfold stored_conversation.
  destruct (List.find _ (table st)) as [item|] eqn:E; [rewrite (Hnone item eq_refl)|];
    reflexivity.
Qed.

Lemma fetch_chat_of_missing_item_witness :
  fetch_chat quiet "u" "s" "C" (fresh [item_A; item_B])
  = (Ok [], add_call (GetItem "u" "s#C") (fresh [item_A; item_B])).
Proof.
  apply (@fetch_chat_of_missing_item quiet "u" "s" "C" (fresh [item_A; item_B])).
  - reflexivity.
  - intros item H. vm_compute in H. discriminate.
Defined.

(** X3.  A single-agent read that fails, because the table is out or
    because the stored conversation does not decode, logs the exception
    once, raises that same exception, and leaves the table and the cache as
    they were; a read that succeeds logs nothing. *)
Theorem fetch_chat_with_timestamp_failure W user_id session_id agent_id st :
  table (snd (fetch_chat_with_timestamp W user_id session_id agent_id st)) = table st
  /\ _chat_cache (snd (fetch_chat_with_timestamp W user_id session_id agent_id st))
     = _chat_cache st
  /\ log (snd (fetch_chat_with_timestamp W user_id session_id agent_id st))
     = match fst (fetch_chat_with_timestamp W user_id session_id agent_id st) with
       | Ok _ => log st
       | Raise e => log st ++ [ErrorGetting e]
       end
  /\ (forall e,
        fst (fetch_chat_with_timestamp W user_id session_id agent_id st) = Raise e <->
        outage W (length (calls st)) = Some e
        \/ (outage W (length (calls st)) = None
            /\ _dict_to_conversation
                 (stored_conversation
                    (List.find (has_key user_id (_generate_key user_id session_id agent_id))
                       (table st)))
               = Raise e)).
Proof.
  rewrite fetch_chat_with_timestamp_run.
  destruct (outage W (length (calls st))) as [e0|].
  - cbn [fst snd]. repeat (split; [reflexivity|]). intros e.
    split; [intros [= ->]; auto | intros [H|[H1 H2]]; congruence].
  - destruct (_dict_to_conversation _) as [l|e0]; cbn [fst snd];
      repeat (split; [reflexivity|]); intros e;
      (split; [intros H; first [discriminate | injection H as ->; auto]
              | intros [H|[H1 H2]]; congruence]).
Qed.

(** ** Decoding a stored conversation *)

(** The first missing key, in the order role, content, timestamp, is the one
    the [KeyError] names; a record that is not a map raises [TypeError]. *)
Lemma record_to_message_errors :
  record_to_message (VDict [("content", VStr "hi"); ("timestamp", VNum 1)])
  = Raise (KeyError "role")
  /\ record_to_message (VDict [("role", VStr "user"); ("timestamp", VNum 1)])
     = Raise (KeyError "content")
  /\ record_to_message (VDict [("role", VStr "user"); ("content", VStr "hi")])
     = Raise (KeyError "timestamp")
  /\ record_to_message (VStr "user") = Raise TypeError.
Proof. repeat split. Qed.

(** ** The life of a cache entry *)

(** X5.  A cache entry younger than the time-to-live answers
    [fetch_all_chats] by itself: the call returns the entry's data, sends no
    request to the table, writes no log line and leaves the cache as it is,
    whatever the table holds and even when the table is out. *)
Theorem fetch_all_chats_served_from_cache W user_id session_id st entry :
  _chat_cache st !! (user_id ++ ":" ++ session_id)%string = Some entry ->
  (clock W (ticks st) - ce_timestamp entry < _cache_ttl)%Q ->
  fst (fetch_all_chats W user_id session_id st) = Ok (ce_data entry)
  /\ calls (snd (fetch_all_chats W user_id session_id st)) = calls st
  /\ log (snd (fetch_all_chats W user_id session_id st)) = log st
  /\ _chat_cache (snd (fetch_all_chats W user_id session_id st)) = _chat_cache st
  /\ table (snd (fetch_all_chats W user_id session_id st)) = table st.
Proof.
  intros Hentry Hage.
  assert (Hrun : fetch_all_chats W user_id session_id st = (Ok (ce_data entry), tick st)).
  { unfold fetch_all_chats, try_except, bind at 1, time_time.
    unfold bind at 1, gets. cbn [_chat_cache tick]. unfold cached.
    rewrite Hentry. apply Qltb_lt in Hage. rewrite Hage. reflexivity. }
  rewrite Hrun. repeat split.
Qed.

Lemma fetch_all_chats_served_from_cache_witness :
  fst (fetch_all_chats second_request_fails "u" "s"
         (mkState [item_A]
            {[ "u:s"%string := mkCacheEntry 95
                 [mkConversationMessage (VStr "user") (text_block "old")] ]}
            [] [GetItem "u" "s#A"] 0))
  = Ok [mkConversationMessage (VStr "user") (text_block "old")].
Proof.
  apply (@fetch_all_chats_served_from_cache second_request_fails "u" "s"
           (mkState [item_A]
              {[ "u:s"%string := mkCacheEntry 95
                   [mkConversationMessage (VStr "user") (text_block "old")] ]}
              [] [GetItem "u" "s#A"] 0)
           (mkCacheEntry 95 [mkConversationMessage (VStr "user") (text_block "old")])).
  - reflexivity.
  - reflexivity.
Defined.

(** The sweep keeps every entry that is not older than ten times the
    time-to-live. *)
Lemma _clean_cache_keeps W current_time st k e :
  _chat_cache st !! k = Some e ->
  (current_time - ce_timestamp e <= _cache_ttl * 10)%Q ->
  _chat_cache (snd (_clean_cache W current_time st)) !! k = Some e.
Proof.
  intros H Hage. unfold _clean_cache.
  destruct (hash_of_time W current_time mod 100 =? 0); [|exact H].
  unfold modify. cbn [snd set_cache _chat_cache].
  apply map_lookup_filter_Some. split; [exact H|].
  cbn [snd]. unfold expired. apply Qltb_ge. exact Hage.
Qed.

(** X9.  The sweep [_clean_cache] only ever removes: an entry of the cache
    after the sweep was there before; an entry whose age is at most ten
    times the time-to-live always stays; nothing at all is removed unless
    the hash of the time is a multiple of 100, and then every entry older
    than ten times the time-to-live goes.  The sweep does not fail and
    touches nothing but the cache. *)
Theorem _clean_cache_sweeps_old_entries W current_time st :
  fst (_clean_cache W current_time st) = Ok tt
  /\ table (snd (_clean_cache W current_time st)) = table st
  /\ calls (snd (_clean_cache W current_time st)) = calls st
  /\ log (snd (_clean_cache W current_time st)) = log st
  /\ (forall k e,
        _chat_cache (snd (_clean_cache W current_time st)) !! k = Some e ->
        _chat_cache st !! k = Some e)
  /\ (forall k e,
        _chat_cache st !! k = Some e ->
        (current_time - ce_timestamp e <= _cache_ttl * 10)%Q ->
        _chat_cache (snd (_clean_cache W current_time st)) !! k = Some e)
  /\ (hash_of_time W current_time mod 100 <> 0 ->
      _chat_cache (snd (_clean_cache W current_time st)) = _chat_cache st)
  /\ (hash_of_time W current_time mod 100 = 0 ->
      forall k e,
        _chat_cache st !! k = Some e ->
        (_cache_ttl * 10 < current_time - ce_timestamp e)%Q ->
        _chat_cache (snd (_clean_cache W current_time st)) !! k = None).
Proof.
  unfold _clean_cache.
  destruct (hash_of_time W current_time mod 100 =? 0) eqn:Hdue.
  - apply Z.eqb_eq in Hdue. unfold modify. cbn [fst snd set_cache table calls log _chat_cache].
    repeat (split; [reflexivity|]).
    split; [|split; [|split]].
    + intros k e H. apply map_lookup_filter_Some in H as [H _]. exact H.
    + intros k e H Hage. apply map_lookup_filter_Some. split; [exact H|].
      cbn [snd]. unfold expired. apply Qltb_ge. exact Hage.
    + intros Hn. contradiction.
    + intros _ k e H Hage. apply map_lookup_filter_None. right.
      intros e' He'. cbn [snd]. unfold expired.
      assert (e' = e) as -> by congruence.
      apply Qltb_lt in Hage. rewrite Hage. discriminate.
  - apply Z.eqb_neq in Hdue. unfold ret. cbn [fst snd].
    repeat (split; [reflexivity|]).
    split; [auto|]. split; [auto|]. split; [reflexivity|]. intros H. contradiction.
Qed.

Lemma _clean_cache_sweeps_old_entries_witness :
  _chat_cache (snd (_clean_cache sweep_due 200 two_ages_cached)) !! "u:new"%string
  = Some (mkCacheEntry 150 [])
  /\ _chat_cache (snd (_clean_cache sweep_due 200 two_ages_cached)) !! "u:old"%string
     = None.
Proof.
  destruct (@_clean_cache_sweeps_old_entries sweep_due 200 two_ages_cached)
    as (_ & _ & _ & _ & _ & Hstay & _ & Hgone).
  split.
  - apply Hstay; [reflexivity|]. vm_compute. discriminate.
  - apply (Hgone eq_refl "u:old"%string (mkCacheEntry 0 [])); reflexivity.
Defined.

Lemma merge_items_cache W items : forall acc, preserves _chat_cache (merge_items W items acc).
Proof.
  induction items as [|item items IH]; intros acc; cbn [merge_items].
  - frame.
  - unfold logger. frame; apply IH.
Qed.

Lemma merge_items_ticks W items : forall acc, preserves ticks (merge_items W items acc).
Proof.
  induction items as [|item items IH]; intros acc; cbn [merge_items].
  - frame.
  - unfold logger. frame; apply IH.
Qed.

(** After a merge from the table, the cache holds the result under the key
    of the session, stamped with the time the call read. *)
Lemma fetch_all_chats_miss_caches W user_id session_id st n per_agent :
  cached (clock W (ticks st)) (user_id ++ ":" ++ session_id)%string (_chat_cache st) = None ->
  outage W (length (calls st)) = None ->
  count_messages (session_items user_id session_id st) = Ok n ->
  traverse (item_messages W) (session_items user_id session_id st) = Ok per_agent ->
  exists st',
    fetch_all_chats W user_id session_id st
    = (Ok (_remove_timestamps (sort_by_timestamp (concat per_agent))), st')
    /\ _chat_cache st' !! (user_id ++ ":" ++ session_id)%string
       = Some (mkCacheEntry (clock W (ticks st))
                 (_remove_timestamps (sort_by_timestamp (concat per_agent))))
    /\ ticks st' = S (ticks st).
Proof.
  intros Hmiss Hup.
  unfold fetch_all_chats, try_except, bind at 1, time_time.
  unfold bind at 1, gets. cbn [ticks tick _chat_cache].
  rewrite Hmiss.
  unfold fetch_from_table, bind at 1, query, bind at 1, send.
  unfold tick at 1. cbn [calls]. rewrite Hup. unfold gets.
  change (table (add_call (Query user_id (session_id ++ "#")) (tick st)))
    with (table st).
  fold (session_items user_id session_id st).
  destruct (session_items user_id session_id st) as [|item items] eqn:E;
    intros Hcount Hitems.
  - injection Hitems as <-. unfold bind, remember, modify, ret. cbn.
    eexists. split; [reflexivity|]. cbn.
    split; [apply lookup_insert_eq | reflexivity].
  - unfold bind at 1, lift. rewrite Hcount.
    unfold bind at 1. rewrite (merge_items_run [] _ Hitems).
    unfold bind at 1, remember, modify. unfold bind at 1.
    match goal with |- context [_clean_cache W ?t ?s] =>
      pose proof (@_clean_cache_keeps W t s (user_id ++ ":" ++ session_id)%string
                    (mkCacheEntry t (_remove_timestamps
                       (sort_by_timestamp ([] ++ concat per_agent))))) as Hstay;
      pose proof (_clean_cache_run W t s) as [c Hc];
      destruct (_clean_cache W t s) as [[[]|e] s'] eqn:Hsweep; [|discriminate]
    end.
    cbn [fst snd] in *. unfold ret. cbn [fst snd].
    eexists. split; [reflexivity|]. split.
    + apply Hstay; [apply lookup_insert_eq|].
      cbn [ce_timestamp]. unfold _cache_ttl. lra.
    + injection Hc as ->. reflexivity.
Qed.

(** X6.  A merged view computed from the table is remembered: when
    [fetch_all_chats] has not been answered by the cache and has succeeded,
    a second call for the same session whose clock reading is less than the
    time-to-live after the first returns the same view, sends no request and
    leaves table, cache and log as the first call left them. *)
Theorem fetch_all_chats_repeated_within_ttl W user_id session_id st n per_agent :
  cached (clock W (ticks st)) (user_id ++ ":" ++ session_id)%string (_chat_cache st) = None ->
  outage W (length (calls st)) = None ->
  count_messages (session_items user_id session_id st) = Ok n ->
  traverse (item_messages W) (session_items user_id session_id st) = Ok per_agent ->
  (clock W (S (ticks st)) - clock W (ticks st) < _cache_ttl)%Q ->
  fetch_all_chats W user_id session_id (snd (fetch_all_chats W user_id session_id st))
  = (fst (fetch_all_chats W user_id session_id st),
     tick (snd (fetch_all_chats W user_id session_id st))).
Proof.
  intros Hmiss Hup Hcount Hitems Hsoon.
  destruct (fetch_all_chats_miss_caches Hmiss Hup Hcount Hitems)
    as (st' & Hrun & Hentry & Hticks).
  rewrite Hrun. cbn [fst snd].
  rewrite (@fetch_all_chats_hit W user_id session_id st' _ Hentry).
  - reflexivity.
  - rewrite Hticks. exact Hsoon.
Qed.

Lemma fetch_all_chats_repeated_within_ttl_witness :
  fetch_all_chats quiet "u" "s"
    (snd (fetch_all_chats quiet "u" "s" (fresh [item_A; item_B])))
  = (fst (fetch_all_chats quiet "u" "s" (fresh [item_A; item_B])),
     tick (snd (fetch_all_chats quiet "u" "s" (fresh [item_A; item_B])))).
Proof.
  apply (@fetch_all_chats_repeated_within_ttl quiet "u" "s" (fresh [item_A; item_B]) 2
           [[mkTimestampedMessage (VStr "user") (text_block "hi") 1];
            [mkTimestampedMessage (VStr "assistant") (text_block "[B] hello") 2]]);
    reflexivity.
Defined.

(** X8.  A session without items is not an error and is remembered as
    empty: when the cache does not answer and the query returns nothing,
    [fetch_all_chats] returns the empty list and stores an empty entry
    stamped with the time it read; it does not run the sweep and logs
    nothing. *)
Theorem fetch_all_chats_empty_session W user_id session_id st :
  cached (clock W (ticks st)) (user_id ++ ":" ++ session_id)%string (_chat_cache st) = None ->
  outage W (length (calls st)) = None ->
  session_items user_id session_id st = [] ->
  fetch_all_chats W user_id session_id st
  = (Ok [],
     set_cache (<[(user_id ++ ":" ++ session_id)%string :=
                    mkCacheEntry (clock W (ticks st)) []]> (_chat_cache st))
       (add_call (Query user_id (session_id ++ "#")) (tick st))).
Proof.
  intros Hmiss Hup Hnone.
  rewrite (fetch_all_chats_uncached Hmiss).
  unfold fetch_from_table, try_except, bind at 1, query, bind at 1, send.
  unfold tick at 1. cbn [calls]. rewrite Hup. unfold gets.
  change (table (add_call (Query user_id (session_id ++ "#")) (tick st)))
    with (table st).
  fold (session_items user_id session_id st). rewrite Hnone. reflexivity.
Qed.

Lemma fetch_all_chats_empty_session_witness :
  fetch_all_chats quiet "u" "other" (fresh [item_A; item_B])
  = (Ok [],
     set_cache (<["u:other"%string := mkCacheEntry (clock quiet 0) []]> ∅)
       (add_call (Query "u" "other#") (tick (fresh [item_A; item_B])))).
Proof.
  apply (@fetch_all_chats_empty_session quiet "u" "other" (fresh [item_A; item_B]));
    reflexivity.
Defined.

(** X7.  A [fetch_all_chats] that fails caches nothing: whenever the call
    raises, because the query failed or because an item could not be merged,
    the cache and the table are as they were before the call, and the
    exception raised is the last one logged. *)
Theorem fetch_all_chats_failure_caches_nothing W user_id session_id st e :
  fst (fetch_all_chats W user_id session_id st) = Raise e ->
  _chat_cache (snd (fetch_all_chats W user_id session_id st)) = _chat_cache st
  /\ table (snd (fetch_all_chats W user_id session_id st)) = table st
  /\ last (log (snd (fetch_all_chats W user_id session_id st))) = Some (ErrorQuerying e).
Proof.
  assert (H : forall r st',
             fetch_all_chats W user_id session_id st = (r, st') -> r = Raise e ->
             _chat_cache st' = _chat_cache st /\ table st' = table st
             /\ last (log st') = Some (ErrorQuerying e)).
  { unfold fetch_all_chats, try_except, bind at 1, time_time.
    unfold bind at 1, gets. cbn [ticks tick _chat_cache].
    destruct (cached _ _ _) as [data|]; [intros r st' [= <- <-]; discriminate|].
    unfold fetch_from_table, bind at 1, query, bind at 1, send.
    unfold tick at 1. cbn [calls].
    destruct (outage W (length (calls st))) as [e0|].
    { cbn. intros r st' [= <- <-] [= ->]. repeat split. apply last_snoc. }
    unfold gets.
    change (table (add_call (Query user_id (session_id ++ "#")) (tick st)))
      with (table st).
    fold (session_items user_id session_id st).
    destruct (session_items user_id session_id st) as [|item items];
      [intros r st' [= <- <-]; discriminate|].
    unfold bind at 1, lift.
    destruct (count_messages (item :: items)) as [n|e0].
    2:{ cbn. intros r st' [= <- <-] [= ->]. repeat split. apply last_snoc. }
    unfold bind at 1.
    match goal with |- context [merge_items W ?l ?acc ?s] =>
      pose proof (merge_items_cache W l acc s) as Hc;
      pose proof (merge_items_table W l acc s) as Ht;
      destruct (merge_items W l acc s) as [[all_chats|e0] st2]
    end; cbn [fst snd] in *.
    - unfold bind at 1, remember, modify. unfold bind at 1.
      match goal with |- context [_clean_cache W ?t ?s] =>
        destruct (_clean_cache_run W t s) as [c ->] end.
      intros r st' [= <- <-]. discriminate.
    - unfold bind, logger, modify, raise. cbn. intros r st' [= <- <-] [= ->].
      cbn. split; [exact Hc|]. split; [exact Ht|]. apply last_snoc. }
  intros Hfail.
  destruct (fetch_all_chats W user_id session_id st) as [r st'] eqn:E.
  exact (H r st' eq_refl Hfail).
Qed.

Lemma fetch_all_chats_failure_caches_nothing_witness :
  _chat_cache (snd (fetch_all_chats quiet "u" "s" (fresh [item_without_timestamp; item_B])))
  = _chat_cache (fresh [item_without_timestamp; item_B])
  /\ table (snd (fetch_all_chats quiet "u" "s" (fresh [item_without_timestamp; item_B])))
     = table (fresh [item_without_timestamp; item_B])
  /\ last (log (snd (fetch_all_chats quiet "u" "s"
                       (fresh [item_without_timestamp; item_B]))))
     = Some (ErrorQuerying (KeyError "timestamp")).
Proof.
  apply (@fetch_all_chats_failure_caches_nothing quiet "u" "s"
           (fresh [item_without_timestamp; item_B]) (KeyError "timestamp")).
  reflexivity.
Defined.

(** ** The order of the merged view *)

Lemma sort_by_timestamp_sorted_id l :
  StronglySorted by_timestamp l -> sort_by_timestamp l = l.
Proof.
  induction 1 as [|x l Hs IH Hall]; [reflexivity|].
  cbn [sort_by_timestamp foldr]. fold (sort_by_timestamp l). rewrite IH.
  destruct l as [|y l]; [reflexivity|].
  cbn [insert_by_timestamp].
  apply List.Forall_inv in Hall. unfold by_timestamp in Hall.
  apply Z.leb_le in Hall. rewrite Hall. reflexivity.
Qed.

(** X10.  Messages that the table holds in the order of their timestamps
    come back in that order: when the concatenation of the decoded
    conversations, in the order of the items, has non-decreasing timestamps,
    the merged view is that concatenation without the timestamps.  So the
    conversation of a session with a single agent is returned as stored. *)
Theorem fetch_all_chats_keeps_sorted_order W user_id session_id st n per_agent :
  cached (clock W (ticks st)) (user_id ++ ":" ++ session_id)%string (_chat_cache st) = None ->
  outage W (length (calls st)) = None ->
  count_messages (session_items user_id session_id st) = Ok n ->
  traverse (item_messages W) (session_items user_id session_id st) = Ok per_agent ->
  StronglySorted by_timestamp (concat per_agent) ->
  fst (fetch_all_chats W user_id session_id st)
  = Ok (_remove_timestamps (concat per_agent)).
Proof.
  intros Hmiss Hup Hcount Hitems Hsorted.
  destruct (fetch_all_chats_miss Hmiss Hup Hcount Hitems) as (st' & -> & _).
  rewrite (sort_by_timestamp_sorted_id Hsorted). reflexivity.
Qed.

Lemma fetch_all_chats_keeps_sorted_order_witness :
  fst (fetch_all_chats quiet "u" "s" (fresh [item_A; item_B]))
  = Ok (_remove_timestamps (concat
          [[mkTimestampedMessage (VStr "user") (text_block "hi") 1];
           [mkTimestampedMessage (VStr "assistant") (text_block "[B] hello") 2]])).
Proof.
  apply (@fetch_all_chats_keeps_sorted_order quiet "u" "s" (fresh [item_A; item_B]) 2);
    try reflexivity.
  repeat constructor; unfold by_timestamp; cbn; lia.
Defined.

Lemma traverse_length {A B} (f : A -> result B) l ys :
  traverse f l = Ok ys -> length ys = length l.
Proof.
  revert ys; induction l as [|x l IH]; intros ys H.
  - injection H as <-. reflexivity.
  - apply traverse_cons_Ok in H as (y & ys' & _ & Hys & ->).
    cbn. rewrite (IH _ Hys). reflexivity.
Qed.

(** The count taken before the merge is the number of messages merged, when
    every item holds a list. *)
Lemma count_messages_length W items per_agent :
  forallb has_conversation items = true ->
  traverse (item_messages W) items = Ok per_agent ->
  count_messages items = Ok (Z.of_nat (length (concat per_agent))).
Proof.
  unfold count_messages.
  revert per_agent. induction items as [|item items IH]; intros per_agent Hl H.
  - injection H as <-. reflexivity.
  - apply traverse_cons_Ok in H as (msgs & rest & Hitem & Hrest & ->).
    cbn [forallb] in Hl. apply andb_prop in Hl as [Hi Hs].
    specialize (IH _ Hs Hrest).
    apply rbind_Ok in IH as (lens & Hlens & [= Hsum]).
    unfold has_conversation in Hi. unfold item_messages in Hitem.
    cbn [traverse].
    destruct (dict_get "conversation" item) as [[| | | |conv|]|]; try discriminate.
    apply rbind_Ok in Hitem as (agent & _ & Hmsgs).
    apply traverse_length in Hmsgs.
    cbn [py_len rbind]. rewrite Hlens. cbn [rbind foldr concat].
    rewrite Hsum, length_app, Hmsgs. f_equal. lia.
Qed.

(** X18.  The merge neither drops nor repeats a message: when every item of
    the session holds a list and the call succeeds from the table, the
    merged view has as many messages as the lengths of the stored
    conversations add up to, the sum taken at source line 210. *)
Theorem fetch_all_chats_length W user_id session_id st per_agent :
  cached (clock W (ticks st)) (user_id ++ ":" ++ session_id)%string (_chat_cache st) = None ->
  outage W (length (calls st)) = None ->
  forallb has_conversation (session_items user_id session_id st) = true ->
  traverse (item_messages W) (session_items user_id session_id st) = Ok per_agent ->
  exists view,
    fst (fetch_all_chats W user_id session_id st) = Ok view
    /\ count_messages (session_items user_id session_id st)
       = Ok (Z.of_nat (length view)).
Proof.
  intros Hmiss Hup Hlists Hitems.
  pose proof (count_messages_length Hlists Hitems) as Hcount.
  destruct (fetch_all_chats_miss Hmiss Hup Hcount Hitems) as (st' & -> & _).
  eexists. split; [reflexivity|].
  rewrite Hcount. unfold _remove_timestamps.
  rewrite length_map, (Permutation_length (sort_by_timestamp_perm _)). reflexivity.
Qed.

Lemma fetch_all_chats_length_witness :
  exists view,
    fst (fetch_all_chats quiet "u" "s" (fresh [item_A; item_B])) = Ok view
    /\ count_messages (session_items "u" "s" (fresh [item_A; item_B]))
       = Ok (Z.of_nat (length view)).
Proof.
  apply (@fetch_all_chats_length quiet "u" "s" (fresh [item_A; item_B])
           [[mkTimestampedMessage (VStr "user") (text_block "hi") 1];
            [mkTimestampedMessage (VStr "assistant") (text_block "[B] hello") 2]]);
    reflexivity.
Defined.

Lemma insert_by_timestamp_comm x y l :
  timestamp x <> timestamp y ->
  insert_by_timestamp x (insert_by_timestamp y l)
  = insert_by_timestamp y (insert_by_timestamp x l).
Proof.
  intros Hne. induction l as [|z l IH]; cbn [insert_by_timestamp].
  - destruct (timestamp x <=? timestamp y) eqn:Exy,
             (timestamp y <=? timestamp x) eqn:Eyx; try reflexivity;
      rewrite ?Z.leb_le, ?Z.leb_gt in *; lia.
  - destruct (timestamp x <=? timestamp z) eqn:Exz,
             (timestamp y <=? timestamp z) eqn:Eyz;
      cbn [insert_by_timestamp]; rewrite ?Exz, ?Eyz;
      destruct (timestamp x <=? timestamp y) eqn:Exy,
               (timestamp y <=? timestamp x) eqn:Eyx;
      try reflexivity; try (rewrite IH; reflexivity);
      rewrite ?Z.leb_le, ?Z.leb_gt in *; lia.
Qed.

(** With pairwise distinct timestamps the sorted list does not depend on the
    order of the input. *)
Lemma sort_by_timestamp_order_free l1 l2 :
  Permutation l1 l2 -> List.NoDup (map (@timestamp Z) l1) ->
  sort_by_timestamp l1 = sort_by_timestamp l2.
Proof.
  induction 1 as [|x l l' Hp IH|x y l|l l' l'' Hp1 IH1 Hp2 IH2]; intros Hnd.
  - reflexivity.
  - cbn [sort_by_timestamp foldr]. fold (sort_by_timestamp l) (sort_by_timestamp l').
    inversion Hnd; subst. rewrite IH by assumption. reflexivity.
  - cbn [sort_by_timestamp foldr]. fold (sort_by_timestamp l).
    apply insert_by_timestamp_comm.
    inversion Hnd as [|? ? Hnotin _]; subst.
    intros Heq. apply Hnotin. left. symmetry. exact Heq.
  - rewrite IH1 by assumption. apply IH2.
    exact (Permutation_NoDup (Permutation_map _ Hp1) Hnd).
Qed.

Lemma traverse_perm {A B} (f : A -> result B) l1 l2 :
  Permutation l1 l2 ->
  forall ys1, traverse f l1 = Ok ys1 ->
  exists ys2, traverse f l2 = Ok ys2 /\ Permutation ys1 ys2.
Proof.
  induction 1 as [|x l l' Hp IH|x y l|l l' l'' Hp1 IH1 Hp2 IH2]; intros ys1 H.
  - exists ys1. auto.
  - apply traverse_cons_Ok in H as (y & ys & Hy & Hys & ->).
    destruct (IH _ Hys) as (ys2 & H2 & Hperm).
    exists (y :: ys2). cbn [traverse]. rewrite Hy, H2. auto.
  - apply traverse_cons_Ok in H as (b & ys & Hb & Hys & ->).
    apply traverse_cons_Ok in Hys as (a & ys' & Ha & Hys' & ->).
    exists (a :: b :: ys'). cbn [traverse]. rewrite Ha, Hb. cbn [rbind].
    rewrite Hys'. split; [reflexivity | apply perm_swap].
  - destruct (IH1 _ H) as (ys2 & H2 & Hp12).
    destruct (IH2 _ H2) as (ys3 & H3 & Hp23).
    exists ys3. split; [exact H3 | etransitivity; eassumption].
Qed.

Lemma concat_perm {A} (l1 l2 : list (list A)) :
  Permutation l1 l2 -> Permutation (concat l1) (concat l2).
Proof.
  induction 1 as [|x l l' Hp IH|x y l|l l' l'' Hp1 IH1 Hp2 IH2]; cbn [concat].
  - reflexivity.
  - apply Permutation_app_head, IH.
  - apply Permutation_app_swap_app.
  - etransitivity; eassumption.
Qed.

(** X11.  The merged view does not depend on the order in which the table
    returns the items, provided no two messages of the session carry the
    same timestamp: two states whose queries return the same items in
    different orders give the same merged view. *)
Theorem fetch_all_chats_order_free W user_id session_id st1 st2 per_agent :
  cached (clock W (ticks st1)) (user_id ++ ":" ++ session_id)%string (_chat_cache st1) = None ->
  cached (clock W (ticks st2)) (user_id ++ ":" ++ session_id)%string (_chat_cache st2) = None ->
  outage W (length (calls st1)) = None ->
  outage W (length (calls st2)) = None ->
  Permutation (session_items user_id session_id st1) (session_items user_id session_id st2) ->
  forallb has_conversation (session_items user_id session_id st1) = true ->
  traverse (item_messages W) (session_items user_id session_id st1) = Ok per_agent ->
  List.NoDup (map (@timestamp Z) (concat per_agent)) ->
  fst (fetch_all_chats W user_id session_id st1)
  = fst (fetch_all_chats W user_id session_id st2).
Proof.
  intros Hmiss1 Hmiss2 Hup1 Hup2 Hperm Hlists Hitems Hdistinct.
  destruct (traverse_perm Hperm Hitems) as (per_agent2 & Hitems2 & Hpa).
  assert (Hlists2 : forallb has_conversation (session_items user_id session_id st2) = true).
  { apply forallb_forall. intros x Hx.
    apply (proj1 (forallb_forall _ _) Hlists).
    exact (Permutation_in x (Permutation_sym Hperm) Hx). }
  destruct (count_messages_Ok Hlists) as [n1 Hn1].
  destruct (count_messages_Ok Hlists2) as [n2 Hn2].
  destruct (fetch_all_chats_miss Hmiss1 Hup1 Hn1 Hitems) as (st1' & -> & _).
  destruct (fetch_all_chats_miss Hmiss2 Hup2 Hn2 Hitems2) as (st2' & -> & _).
  cbn [fst].
  rewrite (sort_by_timestamp_order_free (concat_perm Hpa) Hdistinct). reflexivity.
Qed.

Lemma fetch_all_chats_order_free_witness :
  fst (fetch_all_chats quiet "u" "s" (fresh [item_A; item_B]))
  = fst (fetch_all_chats quiet "u" "s" (fresh [item_B; item_A])).
Proof.
  apply (@fetch_all_chats_order_free quiet "u" "s"
           (fresh [item_A; item_B]) (fresh [item_B; item_A])
           [[mkTimestampedMessage (VStr "user") (text_block "hi") 1];
            [mkTimestampedMessage (VStr "assistant") (text_block "[B] hello") 2]]);
    try reflexivity.
  - apply perm_swap.
  - repeat constructor; cbn; intuition discriminate.
Defined.

(** ** Keys *)

Lemma prefix_app p rest : String.prefix p (p ++ rest) = true.
Proof.
  induction p as [|c p IH]; [destruct rest; reflexivity|].
  change (String c p ++ rest)%string with (String c (p ++ rest)).
  cbn [String.prefix]. destruct (Ascii.ascii_dec c c); [exact IH | contradiction].
Qed.

Lemma string_app_assoc (a b c : string) : ((a ++ b) ++ c = a ++ (b ++ c))%string.
Proof.
  induction a as [|x a IH]; [reflexivity|].
  change (String x ((a ++ b) ++ c) = String x (a ++ (b ++ c)))%string.
  rewrite IH. reflexivity.
Qed.

Lemma split_two_fields s sk :
  String.prefix (s ++ "#") sk = true ->
  exists f0 f1 rest, split "#" sk = f0 :: f1 :: rest.
Proof.
  revert sk. induction s as [|c s IH]; intros [|b sk].
  - discriminate.
  - change ("" ++ "#")%string with "#"%string. cbn [String.prefix].
    destruct (Ascii.ascii_dec "#" b) as [<-|]; [|discriminate]. intros _.
    cbn [split]. rewrite Ascii.eqb_refl.
    destruct (split "#" sk) as [|f1 rest] eqn:E; [|eauto].
    exfalso. exact (split_not_nil E).
  - discriminate.
  - change (String c s ++ "#")%string with (String c (s ++ "#")).
    cbn [String.prefix].
    destruct (Ascii.ascii_dec c b) as [<-|]; [|discriminate]. intros H.
    destruct (IH _ H) as (f0 & f1 & rest & Hsplit).
    cbn [split]. rewrite Hsplit.
    destruct (Ascii.eqb c "#"); eauto.
Qed.

Lemma project_get k item :
  String.eqb k "SK" || String.eqb k "conversation" = true ->
  dict_get k (project item) = dict_get k item.
Proof.
  intros Hk. unfold project. induction item as [|[k' v] item IH]; [reflexivity|].
  cbn [List.filter fst dict_get].
  destruct (String.eqb k k') eqn:E.
  - apply String.eqb_eq in E as <-. rewrite Hk. cbn [dict_get].
    rewrite String.eqb_refl. reflexivity.
  - destruct (String.eqb k' "SK" || String.eqb k' "conversation"); [|exact IH].
    cbn [dict_get]. rewrite E. exact IH.
Qed.

(** X15.  The agent of an item returned by the query can always be read:
    the sort key of such an item starts with the session and "#", so it
    splits into at least two fields and [item['SK'].split('#')[1]] does not
    raise. *)
Theorem agent_id_of_session_items user_id session_id st :
  Forall (fun item => exists agent_id, agent_id_of item = Ok agent_id)
         (session_items user_id session_id st).
Proof.
  unfold session_items. apply List.Forall_forall. intros item Hin.
  apply List.in_map_iff in Hin as (raw & <- & Hraw).
  apply List.filter_In in Hraw as [_ Hm].
  unfold matches in Hm. unfold agent_id_of, getitem.
  rewrite project_get by reflexivity.
  destruct (dict_get "PK" raw) as [[| | |p| |]|]; try discriminate.
  destruct (dict_get "SK" raw) as [[| | |sk| |]|]; try discriminate.
  apply andb_prop in Hm as [_ Hprefix].
  destruct (split_two_fields Hprefix) as (f0 & f1 & rest & Hsplit).
  cbn [rbind]. rewrite Hsplit. exists f1. reflexivity.
Qed.

(** X14.  A "#" in a session identifier breaks the attribution.  The item
    of agent [agent_id] in the session [s1 ++ "#" ++ s2] is returned by the
    query for the session [s1], and the agent read from its key is [s2]:
    [fetch_all_chats] for [s1] merges the messages of the other session and
    tags its assistant messages with a part of the session identifier. *)
Theorem agent_id_of_session_with_separator item user_id s1 s2 agent_id :
  contains "#" s1 = false ->
  contains "#" s2 = false ->
  dict_get "PK" item = Some (VStr user_id) ->
  dict_get "SK" item = Some (VStr (_generate_key user_id (s1 ++ "#" ++ s2) agent_id)) ->
  matches user_id (s1 ++ "#") item = true
  /\ agent_id_of (project item) = Ok s2.
Proof.
  intros H1 H2 Hpk Hsk.
  assert (Hkey : _generate_key user_id (s1 ++ "#" ++ s2) agent_id
                 = ((s1 ++ "#") ++ (s2 ++ String "#" agent_id))%string).
  { unfold _generate_key. rewrite !string_app_assoc. reflexivity. }
  split.
  - unfold matches. rewrite Hpk, Hsk, String.eqb_refl, Hkey. apply prefix_app.
  - unfold agent_id_of, getitem. rewrite project_get by reflexivity.
    rewrite Hsk. cbn [rbind]. rewrite Hkey, string_app_assoc.
    change ("#" ++ s2 ++ String "#" agent_id)%string
      with (String "#" (s2 ++ String "#" agent_id)).
    rewrite (split_at_first _ H1), (split_at_first _ H2). reflexivity.
Qed.

Lemma agent_id_of_session_with_separator_witness :
  matches "u" ("s" ++ "#")
    (stored "u" "s#x" "B" (VList [record "assistant" (text_block "hello") 2])) = true
  /\ agent_id_of
       (project (stored "u" "s#x" "B" (VList [record "assistant" (text_block "hello") 2])))
     = Ok "x"%string.
Proof.
  apply (@agent_id_of_session_with_separator
           (stored "u" "s#x" "B" (VList [record "assistant" (text_block "hello") 2]))
           "u" "s" "x" "B"); reflexivity.
Defined.

(** The effect on the merged view: the reply that agent B gave in the
    session "s#x" shows in the view of the session "s", tagged "[x]". *)
Example fetch_all_chats_other_session :
  fst (fetch_all_chats quiet "u" "s"
         (fresh [item_A;
                 stored "u" "s#x" "B" (VList [record "assistant" (text_block "hello") 2])]))
  = Ok [mkConversationMessage (VStr "user") (text_block "hi");
        mkConversationMessage (VStr "assistant") (text_block "[x] hello")].
Proof. reflexivity. Qed.

(** X16.  The cache key [user_id:session_id] does not tell apart two pairs
    whose identifiers contain ":": when the keys of two pairs are the same
    string, a view computed for the one is served, within the time-to-live,
    to a call for the other, without any request for the other's items.
    The user [u ++ ":" ++ t] with session [s] and the user [u] with session
    [t ++ ":" ++ s] are such pairs. *)
Theorem fetch_all_chats_shared_cache_key
    W user_id session_id user_id' session_id' st n per_agent :
  (user_id ++ ":" ++ session_id = user_id' ++ ":" ++ session_id')%string ->
  cached (clock W (ticks st)) (user_id ++ ":" ++ session_id)%string (_chat_cache st) = None ->
  outage W (length (calls st)) = None ->
  count_messages (session_items user_id session_id st) = Ok n ->
  traverse (item_messages W) (session_items user_id session_id st) = Ok per_agent ->
  (clock W (S (ticks st)) - clock W (ticks st) < _cache_ttl)%Q ->
  fetch_all_chats W user_id' session_id' (snd (fetch_all_chats W user_id session_id st))
  = (fst (fetch_all_chats W user_id session_id st),
     tick (snd (fetch_all_chats W user_id session_id st))).
Proof.
  intros Hkey Hmiss Hup Hcount Hitems Hsoon.
  destruct (fetch_all_chats_miss_caches Hmiss Hup Hcount Hitems)
    as (st' & Hrun & Hentry & Hticks).
  rewrite Hrun. cbn [fst snd]. rewrite Hkey in Hentry.
  rewrite (@fetch_all_chats_hit W user_id' session_id' st' _ Hentry).
  - reflexivity.
  - rewrite Hticks. exact Hsoon.
Qed.

Lemma cache_key_collision (u t s : string) :
  ((u ++ ":" ++ t) ++ ":" ++ s = u ++ ":" ++ (t ++ ":" ++ s))%string.
Proof. rewrite string_app_assoc. reflexivity. Qed.

Lemma fetch_all_chats_shared_cache_key_witness :
  fetch_all_chats quiet "a" "b:c"
    (snd (fetch_all_chats quiet "a:b" "c"
            (fresh [stored "a:b" "c" "A" (VList [record "user" (VStr "secret") 1])])))
  = (Ok [mkConversationMessage (VStr "user") (text_block "secret")],
     tick (snd (fetch_all_chats quiet "a:b" "c"
                  (fresh [stored "a:b" "c" "A" (VList [record "user" (VStr "secret") 1])])))).
Proof.
  apply (@fetch_all_chats_shared_cache_key quiet "a:b" "c" "a" "b:c"
           (fresh [stored "a:b" "c" "A" (VList [record "user" (VStr "secret") 1])]) 1
           [[mkTimestampedMessage (VStr "user") (text_block "secret") 1]]);
    reflexivity.
Defined.

(** ** More on the two save methods *)

(** A save whose read fails stops there. *)
Lemma save_chat_message_read_fails_run W self u s a m max st e :
  fst (fetch_chat_with_timestamp W u s a st) = Raise e ->
  save_chat_message W self u s a m max st
  = (Raise e,
     add_log (ErrorSaving e)
       (add_log (ErrorGetting e) (add_call (GetItem u (_generate_key u s a)) st))).
Proof.
  intros Hread. unfold save_chat_message, try_except, bind at 1.
  rewrite fetch_chat_with_timestamp_run in *.
  destruct (outage W (length (calls st))) as [e0|].
  - cbn in *. injection Hread as ->. reflexivity.
  - destruct (_dict_to_conversation _) as [l|e0]; [discriminate|].
    cbn in *. injection Hread as ->. reflexivity.
Qed.

(** X12.  When the read of the stored conversation fails,
    [save_chat_message] raises the exception of the read and goes no
    further: it sends no write, leaves the table as it was and, unlike a
    save whose write fails, leaves the cache entry of the session in place.
    The exception is logged twice, by the read and by the save. *)
Theorem save_chat_message_read_failure
    W self user_id session_id agent_id new_message max_history_size st e :
  fst (fetch_chat_with_timestamp W user_id session_id agent_id st) = Raise e ->
  fst (save_chat_message W self user_id session_id agent_id new_message
         max_history_size st) = Raise e
  /\ calls (snd (save_chat_message W self user_id session_id agent_id new_message
                   max_history_size st))
     = calls st ++ [GetItem user_id (_generate_key user_id session_id agent_id)]
  /\ table (snd (save_chat_message W self user_id session_id agent_id new_message
                   max_history_size st)) = table st
  /\ _chat_cache (snd (save_chat_message W self user_id session_id agent_id new_message
                         max_history_size st)) = _chat_cache st
  /\ log (snd (save_chat_message W self user_id session_id agent_id new_message
                 max_history_size st))
     = log st ++ [ErrorGetting e; ErrorSaving e].
Proof.
  intros Hread.
  rewrite (save_chat_message_read_fails_run self new_message max_history_size Hread).
  cbn. rewrite <- app_assoc. repeat split.
Qed.

Lemma save_chat_message_read_failure_witness :
  fst (save_chat_message quiet no_ttl "u" "s" "A"
         (Plain (mkConversationMessage (VStr "assistant") (VStr "ok"))) None
         (mkState [item_without_timestamp] {[ "u:s"%string := mkCacheEntry 99 [] ]} [] [] 0))
  = Raise (KeyError "timestamp").
Proof.
  apply (@save_chat_message_read_failure quiet no_ttl "u" "s" "A"
           (Plain (mkConversationMessage (VStr "assistant") (VStr "ok"))) None
           (mkState [item_without_timestamp]
              {[ "u:s"%string := mkCacheEntry 99 [] ]} [] [] 0)
           (KeyError "timestamp")).
  reflexivity.
Defined.

(** X17.  When the stored conversation ends with the role of the incoming
    message, [save_chat_message] does nothing but read and log: it returns
    the stored conversation as read, and the state after the call is the
    state before it with the [GetItem] sent and one debug line written;
    table, cache and clock are untouched. *)
Theorem save_chat_message_repeated_role
    W self user_id session_id agent_id new_message max_history_size st existing :
  fst (fetch_chat_with_timestamp W user_id session_id agent_id st) = Ok existing ->
  is_same_role_as_last_message existing new_message = true ->
  save_chat_message W self user_id session_id agent_id new_message max_history_size st
  = (Ok (map Stamped existing),
     add_log (DebugConsecutive (role_of new_message) agent_id)
       (add_call (GetItem user_id (_generate_key user_id session_id agent_id)) st)).
Proof.
  intros Hread Hrole. unfold save_chat_message, try_except, bind at 1.
  rewrite fetch_chat_with_timestamp_run in *.
  destruct (outage W (length (calls st))) as [e0|]; [discriminate|].
  destruct (_dict_to_conversation _) as [l|e0]; [|discriminate].
  cbn in Hread. injection Hread as ->. rewrite Hrole. reflexivity.
Qed.

Lemma save_chat_message_repeated_role_witness :
  save_chat_message quiet no_ttl "u" "s" "A"
    (Plain (mkConversationMessage (VStr "user") (VStr "again"))) None (fresh [item_A])
  = (Ok (map Stamped [mkTimestampedMessage (VStr "user") (VStr "hi") (VNum 1)]),
     add_log (DebugConsecutive (VStr "user") "A")
       (add_call (GetItem "u" (_generate_key "u" "s" "A")) (fresh [item_A]))).
Proof.
  apply (@save_chat_message_repeated_role quiet no_ttl "u" "s" "A"
           (Plain (mkConversationMessage (VStr "user") (VStr "again"))) None
           (fresh [item_A])); reflexivity.
Defined.

Lemma bind_Ok {A B} (m : M A) (k : A -> M B) st a st1 :
  m st = (Ok a, st1) -> bind m k st = k a st1.
Proof. intros H. unfold bind. rewrite H. reflexivity. Qed.

(** Stamping a whole batch never fails and only reads the clock. *)
Lemma restamp_run W (l : list message) : forall st,
  exists l' st',
    mapM (fun new_message => t <- stamp_now W new_message ;; ret (Stamped t))%M l st
    = (Ok l', st')
    /\ clock_only st st'.
Proof.
  induction l as [|m l IH]; intros st.
  - exists [], st. split; [reflexivity|]. repeat split.
  - cbn [mapM].
    assert (Hs : (t <- stamp_now W m ;; ret (Stamped t))%M st
                 = (Ok (Stamped (mkTimestampedMessage (role_of m) (content_of m)
                                   (VNum (millis_of_time W (clock W (ticks st)))))),
                    tick st)) by reflexivity.
    rewrite (bind_Ok _ Hs).
    destruct (IH (tick st)) as (l' & st' & Hl & (Ht & Hc & Hk & Hg)).
    rewrite (bind_Ok _ Hl). eexists _, _. split; [reflexivity|].
    repeat split; assumption.
Qed.

(** X13.  [save_chat_messages] has no check for a repeated role: whenever
    the read succeeds and the batch is not empty, it sends one write after
    the read, whatever the roles of the stored and of the new messages.
    When that write fails, the exception is logged and raised again, and
    the table is as it was. *)
Theorem save_chat_messages_always_writes
    W self user_id session_id agent_id new_messages max_history_size st existing :
  fst (fetch_chat_with_timestamp W user_id session_id agent_id st) = Ok existing ->
  new_messages <> [] ->
  exists item,
    calls (snd (save_chat_messages W self user_id session_id agent_id new_messages
                  max_history_size st))
    = calls st ++ [GetItem user_id (_generate_key user_id session_id agent_id);
                   PutItem item]
    /\ (forall e,
          outage W (S (length (calls st))) = Some e ->
          fst (save_chat_messages W self user_id session_id agent_id new_messages
                 max_history_size st) = Raise e
          /\ table (snd (save_chat_messages W self user_id session_id agent_id
                           new_messages max_history_size st)) = table st
          /\ last (log (snd (save_chat_messages W self user_id session_id agent_id
                               new_messages max_history_size st)))
             = Some (ErrorSaving e)).
Proof.
  intros Hread Hbatch.
  assert (Hrun : exists item r st3,
             save_chat_messages W self user_id session_id agent_id new_messages
               max_history_size st
             = (try_except (put_item W item)
                  (fun error => logger (ErrorSaving error) ;; raise error) ;;
                ret r)%M st3
             /\ table st3 = table st
             /\ calls st3
                = calls st ++ [GetItem user_id (_generate_key user_id session_id agent_id)]).
  { pose proof (fetch_chat_with_timestamp_table W user_id session_id agent_id st) as Htable.
    pose proof (fetch_chat_with_timestamp_calls W user_id session_id agent_id st) as Hcalls.
    destruct new_messages as [|first rest]; [contradiction|].
    unfold save_chat_messages.
    destruct (fetch_chat_with_timestamp W user_id session_id agent_id st)
      as [[ex|e'] st1] eqn:Hfetch; [|discriminate].
    cbn [fst snd] in *. injection Hread as ->.
    rewrite (bind_Ok _ Hfetch).
    unfold bind at 1, lift, list_index. cbn [lookup list_lookup].
    assert (Hstamp : exists l' st2,
              match first with
              | Plain _ =>
                  mapM (fun new_message =>
                          t <- stamp_now W new_message ;; ret (Stamped t))%M
                       (first :: rest)
              | Stamped _ => ret (first :: rest)
              end st1 = (Ok l', st2) /\ clock_only st1 st2).
    { destruct first as [c|t].
      - apply restamp_run.
      - eexists _, _. split; [reflexivity|]. repeat split. }
    destruct Hstamp as (l' & st2 & Hstamp & (Ht2 & _ & Hk2 & _)).
    rewrite (bind_Ok _ Hstamp).
    match goal with |- context [make_item W self ?u ?k ?c] =>
      destruct (make_item_run W self u k c st2)
        as (item & st3 & Hitem & (Ht3 & _ & Hk3 & _)) end.
    rewrite (bind_Ok _ Hitem).
    eexists _, _, _. split; [reflexivity|]. split; congruence. }
  destruct Hrun as (item & r & st3 & -> & Ht3 & Hk3).
  exists item.
  unfold bind, try_except, put_item, bind, send, logger, modify, raise, ret.
  assert (Hlen : length (calls st3) = S (length (calls st))).
  { rewrite Hk3, length_app. cbn. lia. }
  rewrite Hlen.
  destruct (outage W (S (length (calls st)))) as [e0|]; cbn.
  - split.
    + rewrite Hk3, <- app_assoc. reflexivity.
    + intros e [= ->]. split; [reflexivity|]. split; [exact Ht3|]. apply last_snoc.
  - split; [|intros e; discriminate].
    destruct (dict_get "PK" item) as [[| | |pk| |]|];
      try (cbn; rewrite Hk3, <- app_assoc; reflexivity).
    destruct (dict_get "SK" item) as [[| | |sk| |]|];
      cbn; rewrite Hk3, <- app_assoc; reflexivity.
Qed.

Lemma save_chat_messages_always_writes_witness :
  exists item,
    calls (snd (save_chat_messages second_request_fails no_ttl "u" "s" "A"
                  [Plain (mkConversationMessage (VStr "user") (VStr "again"))] None
                  (fresh [item_A])))
    = calls (fresh [item_A]) ++ [GetItem "u" (_generate_key "u" "s" "A"); PutItem item]
    /\ (forall e,
          outage second_request_fails (S (length (calls (fresh [item_A])))) = Some e ->
          fst (save_chat_messages second_request_fails no_ttl "u" "s" "A"
                 [Plain (mkConversationMessage (VStr "user") (VStr "again"))] None
                 (fresh [item_A])) = Raise e
          /\ table (snd (save_chat_messages second_request_fails no_ttl "u" "s" "A"
                           [Plain (mkConversationMessage (VStr "user") (VStr "again"))]
                           None (fresh [item_A]))) = table (fresh [item_A])
          /\ last (log (snd (save_chat_messages second_request_fails no_ttl "u" "s" "A"
                               [Plain (mkConversationMessage (VStr "user") (VStr "again"))]
                               None (fresh [item_A]))))
             = Some (ErrorSaving e)).
Proof.
  apply (@save_chat_messages_always_writes second_request_fails no_ttl "u" "s" "A"
           [Plain (mkConversationMessage (VStr "user") (VStr "again"))] None
           (fresh [item_A]) [mkTimestampedMessage (VStr "user") (VStr "hi") (VNum 1)]).
  - reflexivity.
  - discriminate.
Defined.

(** X19.  [save_chat_message] never touches the cache entry of another
    session: however the call ends, every key of the cache other than the
    key of its own user and session maps to what it mapped to before. *)
Theorem save_chat_message_keeps_other_entries
    W self user_id session_id agent_id new_message max_history_size st k :
  k <> (user_id ++ ":" ++ session_id)%string ->
  _chat_cache
    (snd (save_chat_message W self user_id session_id agent_id new_message
            max_history_size st)) !! k
  = _chat_cache st !! k.
Proof.
  intros Hk.
  destruct (fst (fetch_chat_with_timestamp W user_id session_id agent_id st))
    as [existing|e] eqn:Hread.
  - destruct (is_same_role_as_last_message existing new_message) eqn:Hrole.
    + destruct (save_chat_message_suppressed self max_history_size Hread Hrole)
        as (_ & _ & -> & _).
      reflexivity.
    + rewrite (save_chat_message_invalidates self max_history_size Hread Hrole).
      apply lookup_delete_ne. congruence.
  - rewrite (save_chat_message_read_fails_run self new_message max_history_size Hread).
    reflexivity.
Qed.

Lemma save_chat_message_keeps_other_entries_witness :
  _chat_cache
    (snd (save_chat_message quiet no_ttl "u" "s" "A"
            (Plain (mkConversationMessage (VStr "assistant") (VStr "ok"))) None
            two_sessions_cached)) !! "u:t"%string
  = _chat_cache two_sessions_cached !! "u:t"%string.
Proof.
  apply (@save_chat_message_keeps_other_entries quiet no_ttl "u" "s" "A"
           (Plain (mkConversationMessage (VStr "assistant") (VStr "ok"))) None
           two_sessions_cached "u:t"%string).
  discriminate.
Defined.

(** X20.  The read methods never write: [fetch_chat] leaves the table and
    the cache as they are and sends exactly one [GetItem];
    [fetch_all_chats] leaves the table as it is and sends either nothing or
    exactly the query for the session. *)
Theorem reads_never_write W user_id session_id agent_id st :
  table (snd (fetch_chat W user_id session_id agent_id st)) = table st
  /\ _chat_cache (snd (fetch_chat W user_id session_id agent_id st)) = _chat_cache st
  /\ calls (snd (fetch_chat W user_id session_id agent_id st))
     = calls st ++ [GetItem user_id (_generate_key user_id session_id agent_id)]
  /\ table (snd (fetch_all_chats W user_id session_id st)) = table st
  /\ (calls (snd (fetch_all_chats W user_id session_id st)) = calls st
      \/ calls (snd (fetch_all_chats W user_id session_id st))
         = calls st ++ [Query user_id (session_id ++ "#")]).
Proof.
  split; [|split; [|split]].
  1-3: rewrite fetch_chat_run;
       destruct (outage W (length (calls st))); [reflexivity|];
       destruct (_dict_to_conversation _); reflexivity.
  split.
  - revert st. change (preserves table (fetch_all_chats W user_id session_id)).
    unfold fetch_all_chats, fetch_from_table, query, remember, _clean_cache, logger.
    frame. apply merge_items_table.
  - destruct (cached (clock W (ticks st)) (user_id ++ ":" ++ session_id)%string
                (_chat_cache st)) as [data|] eqn:Hc.
    + left. unfold fetch_all_chats, try_except, bind at 1, time_time.
      unfold bind at 1, gets. cbn [ticks tick _chat_cache]. rewrite Hc. reflexivity.
    + right. rewrite (fetch_all_chats_uncached Hc), fetch_from_table_calls. reflexivity.
Qed.

(** ** The expiry attribute *)

Lemma fetch_chat_with_timestamp_ticks W u s a :
  preserves ticks (fetch_chat_with_timestamp W u s a).
Proof. unfold fetch_chat_with_timestamp, get_item, logger. frame. Qed.

Lemma make_item_ttl W self u k c st key :
  ttl_key self = Some key -> key <> ""%string ->
  make_item W self u k c st
  = (Ok (dict_set key (VNum (int_of_Q (clock W (ticks st)) + ttl_duration self))
           [("PK"%string, VStr u); ("SK"%string, VStr k);
            ("conversation"%string, conversation_to_dict c)]),
     tick st).
Proof.
  intros Hkey Hne. unfold make_item, add_ttl. rewrite Hkey.
  destruct (String.eqb key "") eqn:E; [apply String.eqb_eq in E; contradiction|].
  reflexivity.
Qed.

(** X21.  With an expiry attribute configured, every item that
    [save_chat_message] sends to the table carries under that attribute the
    whole seconds of a reading of the clock made during the call (the first
    or the second reading) plus [ttl_duration].  The attribute is set last,
    so a name that is also one of the three attributes of the item replaces
    it. *)
Theorem save_chat_message_sets_expiry
    W self user_id session_id agent_id new_message max_history_size st existing key :
  fst (fetch_chat_with_timestamp W user_id session_id agent_id st) = Ok existing ->
  is_same_role_as_last_message existing new_message = false ->
  ttl_key self = Some key -> key <> ""%string ->
  exists item n,
    calls (snd (save_chat_message W self user_id session_id agent_id new_message
                  max_history_size st))
    = calls st ++ [GetItem user_id (_generate_key user_id session_id agent_id);
                   PutItem item]
    /\ dict_get key item
       = Some (VNum (int_of_Q (clock W n) + ttl_duration self))
    /\ (n = ticks st \/ n = S (ticks st)).
Proof.
  intros Hread Hrole Hkey Hne.
  pose proof (fetch_chat_with_timestamp_calls W user_id session_id agent_id st) as Hcalls.
  pose proof (fetch_chat_with_timestamp_ticks W user_id session_id agent_id st) as Hticks.
  unfold save_chat_message.
  destruct (fetch_chat_with_timestamp W user_id session_id agent_id st)
    as [[ex|e'] st1] eqn:Hfetch; [|discriminate].
  cbn [fst snd] in *. injection Hread as ->.
  rewrite (try_except_bind_Ok _ _ Hfetch), Hrole.
  destruct new_message as [c|t].
  - assert (Hs : stamp_now W c st1
                 = (Ok (mkTimestampedMessage (role_of c) (content_of c)
                          (VNum (millis_of_time W (clock W (ticks st1))))), tick st1))
      by reflexivity.
    rewrite (try_except_bind_Ok _ _ Hs).
    rewrite (try_except_bind_Ok _ _ (make_item_ttl W _ _ _ (tick st1) Hkey Hne)).
    eexists _, _. rewrite write_tail_calls. cbn [calls tick ticks].
    rewrite Hcalls, <- app_assoc, dict_get_set, String.eqb_refl, Hticks.
    split; [reflexivity|]. split; [reflexivity|]. right. reflexivity.
  - assert (Hs : ret t st1 = (Ok t, st1)) by reflexivity.
    rewrite (try_except_bind_Ok _ _ Hs).
    rewrite (try_except_bind_Ok _ _ (make_item_ttl W _ _ _ st1 Hkey Hne)).
    eexists _, _. rewrite write_tail_calls. cbn [calls tick ticks].
    rewrite Hcalls, <- app_assoc, dict_get_set, String.eqb_refl, Hticks.
    split; [reflexivity|]. split; [reflexivity|]. left. reflexivity.
Qed.

Lemma save_chat_message_sets_expiry_witness :
  exists item n,
    calls (snd (save_chat_message quiet (mkDynamoDbChatStorage (Some "expires"%string) 3600)
                  "u" "s" "A"
                  (Plain (mkConversationMessage (VStr "assistant") (VStr "ok"))) None
                  (fresh [item_A])))
    = calls (fresh [item_A]) ++ [GetItem "u" (_generate_key "u" "s" "A"); PutItem item]
    /\ dict_get "expires" item
       = Some (VNum (int_of_Q (clock quiet n)
                     + ttl_duration (mkDynamoDbChatStorage (Some "expires"%string) 3600)))
    /\ (n = ticks (fresh [item_A]) \/ n = S (ticks (fresh [item_A]))).
Proof.
  apply (@save_chat_message_sets_expiry quiet
           (mkDynamoDbChatStorage (Some "expires"%string) 3600) "u" "s" "A"
           (Plain (mkConversationMessage (VStr "assistant") (VStr "ok"))) None
           (fresh [item_A]) [mkTimestampedMessage (VStr "user") (VStr "hi") (VNum 1)]
           "expires"%string).
  - reflexivity.
  - reflexivity.
  - reflexivity.
  - discriminate.
Defined.

(** With the attribute named "conversation" the expiry replaces the list of
    records, and the next read of the conversation fails. *)
Example expiry_named_conversation :
  fst (fetch_chat quiet "u" "s" "A"
         (snd (save_chat_message quiet
                 (mkDynamoDbChatStorage (Some "conversation"%string) 3600) "u" "s" "A"
                 (Plain (mkConversationMessage (VStr "assistant") (VStr "ok"))) None
                 (fresh [item_A]))))
  = Raise TypeError.
Proof. reflexivity. Qed.

(** ** What a view merged from the table shows *)

Lemma traverse_In {A B} (f : A -> result B) l ys x :
  traverse f l = Ok ys -> In x l -> exists y, f x = Ok y /\ In y ys.
Proof.
  revert ys; induction l as [|a l IH]; intros ys H Hin; [destruct Hin|].
  apply traverse_cons_Ok in H as (y & ys' & Hy & Hys & ->).
  destruct Hin as [<-|Hin].
  - exists y. split; [exact Hy | left; reflexivity].
  - destruct (IH _ Hys Hin) as (z & Hz & Hzin). exists z. split; [exact Hz | right; exact Hzin].
Qed.

(** When the loop over the items succeeds, every item has contributed. *)
Lemma merge_items_inv W items : forall acc st all_chats st',
  merge_items W items acc st = (Ok all_chats, st') ->
  exists per_agent,
    traverse (item_messages W) items = Ok per_agent
    /\ all_chats = acc ++ concat per_agent.
Proof.
  induction items as [|item items IH]; intros acc st all_chats st' H.
  - injection H as <- <-. exists []. split; [reflexivity|]. cbn. rewrite app_nil_r. reflexivity.
  - cbn [merge_items] in H. cbn [traverse]. unfold item_messages at 1.
    destruct (dict_get "conversation" item) as [[| | | |conversation|]|] eqn:E;
      try (unfold bind at 1, logger, modify in H;
           destruct (IH _ _ _ _ H) as (pa & -> & ->);
           exists ([] :: pa); split; reflexivity).
    unfold bind at 1, lift in H.
    destruct (agent_id_of item) as [agent_id|e]; [|discriminate]. cbn [rbind].
    unfold bind at 1 in H.
    destruct (traverse (merge_message W agent_id) conversation) as [msgs|e];
      [|discriminate].
    destruct (IH _ _ _ _ H) as (pa & -> & ->).
    exists (msgs :: pa). split; [reflexivity|]. cbn [concat]. rewrite app_assoc. reflexivity.
Qed.

(** When [fetch_all_chats] is not answered by the cache and succeeds, the
    query went through, the count and the merge succeeded, and the view is
    the sorted concatenation. *)
Lemma fetch_all_chats_miss_inv W user_id session_id st view :
  cached (clock W (ticks st)) (user_id ++ ":" ++ session_id)%string (_chat_cache st) = None ->
  fst (fetch_all_chats W user_id session_id st) = Ok view ->
  outage W (length (calls st)) = None
  /\ exists n per_agent,
       count_messages (session_items user_id session_id st) = Ok n
       /\ traverse (item_messages W) (session_items user_id session_id st) = Ok per_agent
       /\ view = _remove_timestamps (sort_by_timestamp (concat per_agent)).
Proof.
  intros Hmiss. rewrite (fetch_all_chats_uncached Hmiss).
  unfold fetch_from_table, try_except, bind at 1, query, bind at 1, send.
  unfold tick at 1. cbn [calls].
  destruct (outage W (length (calls st))) as [e0|]; [discriminate|].
  unfold gets.
  change (table (add_call (Query user_id (session_id ++ "#")) (tick st)))
    with (table st).
  fold (session_items user_id session_id st).
  destruct (session_items user_id session_id st) as [|item items].
  { cbn. intros [= <-]. split; [reflexivity|]. exists 0, []. auto. }
  unfold bind at 1, lift.
  destruct (count_messages (item :: items)) as [n|e0]; [|discriminate].
  unfold bind at 1.
  match goal with |- context [merge_items W ?l ?acc ?s] =>
    destruct (merge_items W l acc s) as [[all_chats|e0] st2] eqn:Hmerge
  end; [|discriminate].
  apply merge_items_inv in Hmerge as (per_agent & Hitems & ->).
  unfold bind at 1, remember, modify. unfold bind at 1.
  match goal with |- context [_clean_cache W ?t ?s] =>
    destruct (_clean_cache_run W t s) as [c ->] end.
  cbn. intros [= <-]. split; [reflexivity|]. exists n, per_agent. auto.
Qed.

(** What the body of the loop makes of a record. *)
Lemma merge_message_inv W agent_id msg m r c :
  merge_message W agent_id msg = Ok m ->
  getitem msg "role" = Ok r -> getitem msg "content" = Ok c ->
  role m = r
  /\ (is_assistant r = true ->
      exists text, first_text c = Ok text /\ content m = tagged W agent_id text)
  /\ (is_assistant r = false -> content m = normalize_content c).
Proof.
  intros H Hr Hc. unfold merge_message in H. rewrite Hc, Hr in H. cbn [rbind] in H.
  destruct (is_assistant r).
  - destruct (first_text c) as [text|e]; [|discriminate]. cbn [rbind] in H.
    destruct (getitem msg "timestamp") as [stamp|e]; [|discriminate]. cbn [rbind] in H.
    destruct (py_int W stamp) as [t|e]; [|discriminate]. injection H as <-.
    split; [reflexivity|]. split; [eauto | discriminate].
  - cbn [rbind] in H.
    destruct (getitem msg "timestamp") as [stamp|e]; [|discriminate]. cbn [rbind] in H.
    destruct (py_int W stamp) as [t|e]; [|discriminate]. injection H as <-.
    split; [reflexivity|]. split; [discriminate | reflexivity].
Qed.

(** Every record of every item of the session is in the view, as the body
    of the loop renders it with the agent of the item. *)
Lemma fetch_all_chats_shows_record
    W user_id session_id st view item sk agent_id conversation msg :
  cached (clock W (ticks st)) (user_id ++ ":" ++ session_id)%string (_chat_cache st) = None ->
  fst (fetch_all_chats W user_id session_id st) = Ok view ->
  In item (table st) -> matches user_id (session_id ++ "#") item = true ->
  dict_get "SK" item = Some (VStr sk) -> split "#" sk !! 1%nat = Some agent_id ->
  dict_get "conversation" item = Some (VList conversation) -> In msg conversation ->
  exists m,
    merge_message W agent_id msg = Ok m
    /\ In (mkConversationMessage (role m) (content m)) view.
Proof.
  intros Hmiss Hview Hin Hmatch Hsk Hagent Hconv Hmsg.
  destruct (fetch_all_chats_miss_inv Hmiss Hview) as (_ & n & per_agent & _ & Hitems & ->).
  assert (Hproj : In (project item) (session_items user_id session_id st)).
  { unfold session_items. apply List.in_map. apply List.filter_In. auto. }
  destruct (traverse_In Hitems Hproj) as (msgs & Hmsgs & Hmsgs_in).
  unfold item_messages, agent_id_of, getitem in Hmsgs.
  rewrite !project_get in Hmsgs by reflexivity.
  rewrite Hconv, Hsk in Hmsgs. cbn [rbind] in Hmsgs.
  unfold list_index in Hmsgs. rewrite Hagent in Hmsgs.
  destruct (traverse_In Hmsgs Hmsg) as (m & Hm & Hm_in).
  exists m. split; [exact Hm|].
  unfold _remove_timestamps.
  apply List.in_map_iff. exists m. split; [reflexivity|].
  apply (Permutation_in _ (Permutation_sym (sort_by_timestamp_perm _))).
  apply List.in_concat. eauto.
Qed.

(** C3 (as the claim states it, refuted).  An assistant message with two
    text blocks comes out of [fetch_all_chats] with one block only: the
    tagged text of the first block replaces the whole content, it is not the
    content with its first text block prefixed.  And when the first block is
    not a text block, the first text block is not prefixed either: the call
    fails. *)
Lemma fetch_all_chats_replaces_content :
  fst (fetch_all_chats quiet "u" "s" (fresh [item_two_blocks]))
  = Ok [mkConversationMessage (VStr "assistant") (VList [VDict [("text", VStr "[B] hello")]])]
  /\ fst (fetch_all_chats quiet "u" "s" (fresh [item_two_blocks]))
     <> Ok [mkConversationMessage (VStr "assistant")
              (VList [VDict [("text", VStr "[B] hello")]; VDict [("text", VStr "world")]])]
  /\ fst (fetch_all_chats quiet "u" "s" (fresh [item_image_first]))
     = Raise (KeyError "text").
Proof.
  split; [reflexivity|]. split; [|reflexivity].
  vm_compute. discriminate.
Qed.

(** C3 (amended).  Whenever [fetch_all_chats] is not answered by the cache
    and returns a view, every stored message of every item of the session
    is in the view, rendered with the agent of its item, which is the second
    field of the item's sort key split at "#".  A message whose role is
    assistant and whose content is a list with a first block that has a
    text is there with, as its whole content, the single text block "[",
    the agent, "] " and that text; with a content that is not a list, the
    same with the content itself as the text.  A message of any other role
    is there without a tag: with its content when that is a list, with the
    one text block holding its content otherwise. *)
Theorem fetch_all_chats_tags_assistant_messages
    W user_id session_id st view item sk agent_id conversation msg r c :
  cached (clock W (ticks st)) (user_id ++ ":" ++ session_id)%string (_chat_cache st) = None ->
  fst (fetch_all_chats W user_id session_id st) = Ok view ->
  In item (table st) -> matches user_id (session_id ++ "#") item = true ->
  dict_get "SK" item = Some (VStr sk) -> split "#" sk !! 1%nat = Some agent_id ->
  dict_get "conversation" item = Some (VList conversation) -> In msg conversation ->
  getitem msg "role" = Ok r -> getitem msg "content" = Ok c ->
  (r = VStr "assistant" ->
   forall block rest text,
     c = VList (block :: rest) -> getitem block "text" = Ok text ->
     In (mkConversationMessage (VStr "assistant")
           (VList [VDict [("text", VStr ("[" ++ agent_id ++ "] " ++ format W text))]]))
        view)
  /\ (r = VStr "assistant" -> (forall l, c <> VList l) ->
      In (mkConversationMessage (VStr "assistant")
            (VList [VDict [("text", VStr ("[" ++ agent_id ++ "] " ++ format W c))]]))
         view)
  /\ (r <> VStr "assistant" ->
      In (mkConversationMessage r (normalize_content c)) view).
Proof.
  intros Hmiss Hview Hin Hmatch Hsk Hagent Hconv Hmsg Hr Hc.
  destruct (fetch_all_chats_shows_record Hmiss Hview Hin Hmatch Hsk Hagent Hconv Hmsg)
    as (m & Hm & Hm_in).
  destruct (merge_message_inv Hm Hr Hc) as (Hrole & Htag & Hplain).
  rewrite Hrole in Hm_in.
  split; [|split].
  - intros -> block rest text -> Htext.
    destruct (Htag eq_refl) as (text' & Hfirst & Hcontent).
    unfold first_text, list_index in Hfirst. cbn [lookup list_lookup rbind] in Hfirst.
    rewrite Htext in Hfirst. injection Hfirst as <-.
    rewrite Hcontent in Hm_in. exact Hm_in.
  - intros -> Hnolist.
    destruct (Htag eq_refl) as (text' & Hfirst & Hcontent).
    assert (first_text c = Ok c) as Hself.
    { destruct c; try reflexivity. exfalso. eapply Hnolist. reflexivity. }
    rewrite Hself in Hfirst. injection Hfirst as <-.
    rewrite Hcontent in Hm_in. exact Hm_in.
  - intros Hother. rewrite (Hplain (is_assistant_false Hother)) in Hm_in. exact Hm_in.
Qed.

Lemma fetch_all_chats_tags_assistant_messages_witness :
  In (mkConversationMessage (VStr "assistant")
        (VList [VDict [("text", VStr ("[" ++ "B" ++ "] " ++ format quiet (VStr "hello")))]]))
     [mkConversationMessage (VStr "user") (text_block "hi");
      mkConversationMessage (VStr "assistant") (text_block "[B] hello")].
Proof.
  refine (proj1 (@fetch_all_chats_tags_assistant_messages quiet "u" "s"
                   (fresh [item_A; item_B])
                   [mkConversationMessage (VStr "user") (text_block "hi");
                    mkConversationMessage (VStr "assistant") (text_block "[B] hello")]
                   item_B "s#B" "B"
                   [record "assistant" (text_block "hello") 2]
                   (record "assistant" (text_block "hello") 2)
                   (VStr "assistant") (text_block "hello")
                   _ _ _ _ _ _ _ _ _ _)
                eq_refl (VDict [("text"%string, VStr "hello")]) [] (VStr "hello") _ _);
    try reflexivity.
  - right. left. reflexivity.
  - left. reflexivity.
Defined.

(** ** A save and the view read after it *)









